(** * yamp: configuration loading and the Prometheus query client

    A shallow embedding of [app/core/config.py] and [app/core/prometheus.py].

    Python objects decoded from JSON or YAML are values of [pyobj]; a
    dictionary is a finite map with string keys.  Code that can raise is
    written in a small monad [M] that records the observable effects (HTTP
    requests sent, log records emitted) next to the outcome, which is either
    a returned value or the exception that escapes.

    What the code delegates to libraries is taken as an interface: parsing a
    string as a 64-bit float ([float(s)]), the HTTP server behind the
    transport, pydantic's scalar validators.  The repository's own control
    flow (guards, defaults, [try]/[except] clauses, loops) is written out. *)

From Stdlib Require Import Ascii Floats Uint63.
From stdpp Require Import gmap strings list pretty.

#[local] Set Warnings "-register-all".
#[local] Open Scope Z_scope.

(** ** Python values *)

(** The objects produced by [json.loads] / [response.json()] and by
    [yaml.safe_load] for documents in the core schema.  The keys of a
    dictionary are strings, as in every JSON object; a YAML mapping with a
    key of another type is not represented.  [F] is the type of Python
    floats (IEEE binary64); nothing here computes with floats, they are only
    parsed and passed on. *)
Inductive pyobj (F : Type) : Type :=
  | PyNone
  | PyBool (b : bool)
  | PyInt (z : Z)
  | PyFloat (f : F)
  | PyStr (s : string)
  | PyList (l : list (pyobj F))
  | PyDict (m : gmap string (pyobj F)).

Arguments PyNone {F}.
Arguments PyBool {F} b.
Arguments PyInt {F} z.
Arguments PyFloat {F} f.
Arguments PyStr {F} s.
Arguments PyList {F} l.
Arguments PyDict {F} m.

(** Exceptions.  [PrometheusClientError] and [ConfigError] are the classes of
    prometheus.py and config.py, with the message and the [__cause__] set by
    [raise ... from e].  [RequestError] and [HTTPStatusError] (httpx),
    [YAMLError] (yaml) and [ValidationError] (pydantic, with the top-level
    field of each error) are the library classes the [except] clauses name;
    [SettingsError] is raised by pydantic-settings; the others are the builtin
    exceptions that the operations used by the code raise (PermissionError
    and IsADirectoryError by [open], UnicodeDecodeError by reading bytes that
    are not text in the expected encoding). *)
Inductive exn : Type :=
  | PrometheusClientError (msg : string) (cause : option exn)
  | ConfigError (msg : string) (cause : option exn)
  | RequestError (diag : string)
  | HTTPStatusError (status_code : Z) (text : string)
  | YAMLError (diag : string)
  | ValidationError (locs : list string)
  | SettingsError (field : string)
  | IsADirectoryError
  | PermissionError
  | UnicodeDecodeError
  | JSONDecodeError
  | RuntimeError
  | KeyError
  | TypeError
  | AttributeError
  | ValueError
  | IndexError
  | OverflowError.

(** The four raise sites of [fetch_metric], under the names the
    specification gives them. *)
Definition ClientNotInitialized : exn :=
  PrometheusClientError "Client not initialized. Use 'async with'" None.

Definition ApiError (error_msg : string) : exn :=
  PrometheusClientError ("Prometheus API error: " +:+ error_msg) None.

Definition ConnectionError (diag : string) : exn :=
  PrometheusClientError ("Connection to Prometheus failed: " +:+ diag)
                        (Some (RequestError diag)).

Definition HttpStatusError (status_code : Z) (text : string) : exn :=
  PrometheusClientError ("Prometheus returned status " +:+ pretty status_code)
                        (Some (HTTPStatusError status_code text)).

Definition is_PrometheusClientError (e : exn) : bool :=
  match e with PrometheusClientError _ _ => true | _ => false end.

(** The message of a [PrometheusClientError] contains a given text. *)
Definition message_contains (e : exn) (sub : string) : Prop :=
  match e with
  | PrometheusClientError msg _ => exists pre post, msg = pre +:+ sub +:+ post
  | _ => False
  end.

(** The builtin exceptions that no [except] clause of prometheus.py names. *)
Definition unhandled (e : exn) : Prop :=
  e = TypeError \/ e = KeyError \/ e = AttributeError \/ e = OverflowError.

(** ** Effects *)

Inductive level : Type := ERROR | WARNING.

(** One constructor per logging call of prometheus.py; the rendered message
    is an f-string over the arguments kept here. *)
Inductive log_record (F : Type) : Type :=
  | LogRequestFailed (diag : string)
  | LogHttpError (status_code : Z) (text : string)
  | LogUnparsable (item : pyobj F) (e : exn).

Arguments LogRequestFailed {F} diag.
Arguments LogHttpError {F} status_code text.
Arguments LogUnparsable {F} item e.

Definition levelname {F} (r : log_record F) : level :=
  match r with
  | LogUnparsable _ _ => WARNING
  | LogRequestFailed _ | LogHttpError _ _ => ERROR
  end.

Inductive event (F : Type) : Type :=
  | HttpGet (url : string) (query : string) (timeout : Z)
  | Log (r : log_record F).

Arguments HttpGet {F} url query timeout.
Arguments Log {F} r.

Definition is_network_call {F} (ev : event F) : bool :=
  match ev with HttpGet _ _ _ => true | Log _ => false end.

Definition is_warning {F} (ev : event F) : bool :=
  match ev with
  | Log r => match levelname r with WARNING => true | ERROR => false end
  | HttpGet _ _ _ => false
  end.

Inductive result (A : Type) : Type :=
  | Return (a : A)
  | Raise (e : exn).

Arguments Return {A} a.
Arguments Raise {A} e.

(** A computation: the events it produced, in order, and how it ended. *)
Definition M (F A : Type) : Type := list (event F) * result A.

Definition ret {F A} (a : A) : M F A := ([], Return a).
Definition raise {F A} (e : exn) : M F A := ([], Raise e).
Definition emit {F} (ev : event F) : M F unit := ([ev], Return tt).

Definition bind {F A B} (m : M F A) (k : A -> M F B) : M F B :=
  match m with
  | (evs, Return a) => let '(evs', r) := k a in (evs ++ evs', r)
  | (evs, Raise e) => (evs, Raise e)
  end.

(** [try: body  except ...: handler]: the handler sees the exception and
    either handles it or raises it again. *)
Definition try_except {F A} (body : M F A) (handler : exn -> M F A) : M F A :=
  match body with
  | (evs, Return a) => (evs, Return a)
  | (evs, Raise e) => let '(evs', r) := handler e in (evs ++ evs', r)
  end.

#[export] Instance M_ret {F} : MRet (M F) := fun A => @ret F A.
#[export] Instance M_bind {F} : MBind (M F) := fun A B k m => bind m k.

Definition events {F A} (m : M F A) : list (event F) := m.1.
Definition outcome {F A} (m : M F A) : result A := m.2.

(** [for x in xs: s = body(s, x)], stopping at the first exception. *)
Fixpoint for_each {F A S} (body : S -> A -> M F S) (xs : list A) (s : S) : M F S :=
  match xs with
  | [] => ret s
  | x :: xs' => s' ← body s x; for_each body xs' s'
  end.

(** ** Builtin operations on Python values *)

(** What the interpreter does and this development does not define:
    [float(s)] on a string ([None] is ValueError), [float(n)] on an integer
    ([None] is OverflowError), and [str(v)] of a value that is not a
    string. *)
Class Python (F : Type) : Type := {
  float_of_str : string -> option F;
  float_of_int : Z -> option F;
  py_repr : pyobj F -> string
}.

Section Builtins.
Context {F : Type} `{!Python F}.

(** [d.get(key, dflt)]: a method of dictionaries only. *)
Definition dict_get (d : pyobj F) (key : string) (dflt : pyobj F) : M F (pyobj F) :=
  match d with
  | PyDict m => ret (default dflt (m !! key))
  | _ => raise AttributeError
  end.

(** [d[key]] with a string key. *)
Definition getitem_str (d : pyobj F) (key : string) : M F (pyobj F) :=
  match d with
  | PyDict m => match m !! key with
                | Some v => ret v
                | None => raise KeyError
                end
  | _ => raise TypeError
  end.

(** [v[i]] with a non-negative integer index: lists and strings are
    indexed, a dictionary (whose keys are all strings) has no such key,
    anything else is not subscriptable. *)
Definition getitem_int (v : pyobj F) (i : nat) : M F (pyobj F) :=
  match v with
  | PyList l => match l !! i with
                | Some x => ret x
                | None => raise IndexError
                end
  | PyStr s => match String.get i s with
               | Some c => ret (PyStr (String c ""))
               | None => raise IndexError
               end
  | PyDict _ => raise KeyError
  | _ => raise TypeError
  end.

(** [float(v)]. *)
Definition py_float (v : pyobj F) : M F F :=
  match v with
  | PyFloat f => ret f
  | PyStr s => match float_of_str s with
               | Some f => ret f
               | None => raise ValueError
               end
  | PyInt z => match float_of_int z with
               | Some f => ret f
               | None => raise OverflowError
               end
  | PyBool b => match float_of_int (if b then 1 else 0) with
                | Some f => ret f
                | None => raise OverflowError
                end
  | PyNone | PyList _ | PyDict _ => raise TypeError
  end.

Fixpoint chars (s : string) : list (pyobj F) :=
  match s with
  | "" => []
  | String c s' => PyStr (String c "") :: chars s'
  end.

(** The sequence a [for] loop runs over: the elements of a list, the keys
    of a dictionary, the characters of a string. *)
Definition py_iter (v : pyobj F) : M F (list (pyobj F)) :=
  match v with
  | PyList l => ret l
  | PyDict m => ret (PyStr <$> (map_to_list m).*1)
  | PyStr s => ret (chars s)
  | _ => raise TypeError
  end.

(** [str(v)], as used by an f-string. *)
Definition py_str (v : pyobj F) : string :=
  match v with
  | PyStr s => s
  | _ => py_repr v
  end.

(** [v != s] for a string literal [s]. *)
Definition ne_str (v : pyobj F) (s : string) : bool :=
  match v with
  | PyStr s' => negb (String.eqb s' s)
  | _ => true
  end.
End Builtins.

(** [s.rstrip(c)]: drop every trailing occurrence of the character [c]. *)
Fixpoint rstrip (c : ascii) (s : string) : string :=
  match s with
  | "" => ""
  | String a s' =>
      match rstrip c s' with
      | "" => if Ascii.eqb a c then "" else String a ""
      | r => String a r
      end
  end.

(** [s.endswith(c)] for a single character. *)
Fixpoint ends_with (c : ascii) (s : string) : bool :=
  match s with
  | "" => false
  | String a "" => Ascii.eqb a c
  | String _ s' => ends_with c s'
  end.

(** ** The HTTP transport (httpx) *)

(** What [response.json()] makes of the body of a response: the decoded
    value, or the exception the decoder raises (JSONDecodeError for a text
    that is not JSON, UnicodeDecodeError for bytes that are not valid UTF-8). *)
Inductive decoded (F : Type) : Type :=
  | Json (v : pyobj F)
  | Undecodable (e : exn).

Arguments Json {F} v.
Arguments Undecodable {F} e.

(** A response as the client reads it: the status code, the body text, and
    what [response.json()] does with the body. *)
Record Response (F : Type) : Type := {
  status_code : Z;
  text : string;
  json_body : decoded F
}.

Arguments status_code {F} r.
Arguments text {F} r.
Arguments json_body {F} r.

(** The value the body decodes to, when it does. *)
Definition json {F} (r : Response F) : option (pyobj F) :=
  match json_body r with
  | Json v => Some v
  | Undecodable _ => None
  end.

(** What sending a GET leads to: a transport failure (connection refused,
    DNS failure, timeout), which httpx raises as a [RequestError], or a
    response. *)
Inductive reply (F : Type) : Type :=
  | Failed (diag : string)
  | Replied (r : Response F).

Arguments Failed {F} diag.
Arguments Replied {F} r.

(** The server side, as a function of the URL and the [query] parameter. *)
Definition network (F : Type) : Type := string -> string -> reply F.

(** An [httpx.AsyncClient] is open from its construction until [aclose()]. *)
Inductive AsyncClient : Type := Opened | Closed.

Definition aclose (h : AsyncClient) : AsyncClient := Closed.

Section Httpx.
Context {F : Type}.

(** [await client.get(url, params={"query": query}, timeout=t)].  A closed
    client refuses to send with a RuntimeError and no request goes out. *)
Definition AsyncClient_get (net : network F) (h : AsyncClient)
    (url query : string) (timeout : Z) : M F (Response F) :=
  match h with
  | Closed => raise RuntimeError
  | Opened =>
      _ ← emit (HttpGet url query timeout);
      match net url query with
      | Failed diag => raise (RequestError diag)
      | Replied r => ret r
      end
  end.

Definition is_success (r : Response F) : bool :=
  (200 <=? status_code r) && (status_code r <=? 299).

(** [response.raise_for_status()] *)
Definition raise_for_status (r : Response F) : M F unit :=
  if is_success r then ret tt
  else raise (HTTPStatusError (status_code r) (text r)).

(** [response.json()]: the exception of a body that does not decode is
    raised where the call stands, inside the [try] of [fetch_metric]. *)
Definition Response_json (r : Response F) : M F (pyobj F) :=
  match json_body r with
  | Json v => ret v
  | Undecodable e => raise e
  end.
End Httpx.

(** ** app/core/prometheus.py *)

(** One element of the list [fetch_metric] returns:
    [{"metric": ..., "value": ...}]. *)
Record sample (F : Type) : Type := {
  metric : pyobj F;
  value : F
}.

Arguments Build_sample {F} metric value.
Arguments metric {F} s.
Arguments value {F} s.

Record PrometheusClient : Type := {
  base_url : string;
  query_url : string;
  _client : option AsyncClient
}.

(** [PrometheusClient(base_url)], on [str(base_url)]. *)
Definition __init__ (url : string) : PrometheusClient :=
  let base := rstrip "/"%char url in
  {| base_url := base;
     query_url := base +:+ "/api/v1/query";
     _client := None |}.

Definition __aenter__ (self : PrometheusClient) : PrometheusClient :=
  {| base_url := base_url self;
     query_url := query_url self;
     _client := Some Opened |}.

(** The three arguments of [__aexit__] describe the exception that ended the
    block, if any; the method does not look at them. *)
Definition __aexit__ (self : PrometheusClient) (exc : option exn) : PrometheusClient :=
  match _client self with
  | Some h =>
      {| base_url := base_url self;
         query_url := query_url self;
         _client := Some (aclose h) |}
  | None => self
  end.

(** The states of a client.  [Unbound] is the state the guard of
    [fetch_metric] recognises: no HTTP client was ever created, the scoped
    acquisition was never entered.  [Bound] is the state of the
    specification in which the network resource is acquired: the client holds
    an open HTTP client.  [Released] is the state [__aexit__] leaves a Bound
    client in: the HTTP client is closed, so no network resource is live, and
    the reference to it is kept, so the guard does not take the client for
    Unbound. *)
Definition Unbound (self : PrometheusClient) : Prop := _client self = None.
Definition Bound (self : PrometheusClient) : Prop := _client self = Some Opened.
Definition Released (self : PrometheusClient) : Prop := _client self = Some Closed.

Section Prometheus.
Context {F : Type} `{!Python F}.

(** The body of the loop of [_transform_data]: [results] is the list built
    so far. *)
Definition transform_item (results : list (sample F)) (item : pyobj F)
    : M F (list (sample F)) :=
  try_except
    (v ← dict_get item "value" (PyList [PyInt 0; PyStr "0"]);
     x ← getitem_int v 1;
     value ← py_float x;
     labels ← dict_get item "metric" (PyDict ∅);
     ret (results ++ [Build_sample labels value]))
    (fun e =>
       match e with
       | ValueError | IndexError =>
           _ ← emit (Log (LogUnparsable item e));
           ret results
       | _ => raise e
       end).

(** The sequence the loop runs over:
    [raw_data.get("data", {}).get("result", [])]. *)
Definition result_array (raw_data : pyobj F) : M F (list (pyobj F)) :=
  data ← dict_get raw_data "data" (PyDict ∅);
  result ← dict_get data "result" (PyList []);
  py_iter result.

Definition _transform_data (raw_data : pyobj F) : M F (list (sample F)) :=
  items ← result_array raw_data;
  for_each transform_item items [].

(** What one entry adds to the output: the sample appended by an iteration
    of the loop that starts from the empty list, if it appends one. *)
Definition emitted (item : pyobj F) : option (sample F) :=
  match outcome (transform_item [] item) with
  | Return [s] => Some s
  | _ => None
  end.

(** An entry is skipped when the iteration on it returns the list built so
    far unchanged. *)
Definition skipped (item : pyobj F) : Prop :=
  forall results, outcome (transform_item results item) = Return results.

Definition fetch_metric (net : network F) (self : PrometheusClient) (query : string)
    : M F (list (sample F)) :=
  match _client self with
  | None => raise ClientNotInitialized
  | Some http =>
      try_except
        (response ← AsyncClient_get net http (query_url self) query 10;
         _ ← raise_for_status response;
         data ← Response_json response;
         status ← getitem_str data "status";
         if ne_str status "success" then
           error_msg ← dict_get data "error" (PyStr "Unknown Prometheus API error");
           raise (ApiError (py_str error_msg))
         else
           _transform_data data)
        (fun e =>
           match e with
           | RequestError diag =>
               _ ← emit (Log (LogRequestFailed diag));
               raise (ConnectionError diag)
           | HTTPStatusError code body =>
               _ ← emit (Log (LogHttpError code body));
               raise (HttpStatusError code body)
           | _ => raise e
           end)
  end.
End Prometheus.

(** ** A concrete interpreter interface, for examples

    Python floats as Rocq's primitive binary64 floats.  [float(n)] is the
    IEEE rounding of the integer, OverflowError when it is out of range.
    [float(s)] is implemented for plain decimal numerals only ([12] or
    [12.5], all digits together below [2^53] and at most 18 fractional digits:
    the digits and the power of ten then fit a 63-bit integer, both convert
    to binary64 exactly, and their quotient is the correctly rounded value).
    It rejects every other string, also the signed numerals, the numerals
    with an exponent or with surrounding blanks, and the special values
    ([inf], [nan]) that Python's [float] accepts, so it is an instance for
    the examples and not a model of [float].  [str(v)] of a value that is not
    a string is spelled out for [None], booleans and integers. *)
Module Binary64.

Definition digit (c : ascii) : option Z :=
  let n := Z.of_nat (nat_of_ascii c) in
  if (48 <=? n) && (n <=? 57) then Some (n - 48) else None.

(** Reads digits up to the end of [s]; [n] counts them. *)
Fixpoint fraction (s : string) (acc : Z) (n : nat) : option (Z * nat) :=
  match s with
  | "" => Some (acc, n)
  | String c s' =>
      match digit c with
      | Some d => fraction s' (10 * acc + d) (S n)
      | None => None
      end
  end.

(** Reads the integral digits, then an optional [.] and the fraction. *)
Fixpoint numeral (s : string) (acc : Z) : option (Z * nat) :=
  match s with
  | "" => Some (acc, O)
  | String c s' =>
      match digit c with
      | Some d => numeral s' (10 * acc + d)
      | None =>
          if Ascii.eqb c "."%char then
            match s' with
            | "" => None
            | _ => fraction s' acc O
            end
          else None
      end
  end.

Definition decimal (s : string) : option (Z * nat) :=
  match s with
  | "" => None
  | String c _ =>
      match digit c with
      | Some _ => numeral s 0
      | None => None
      end
  end.

Definition of_decimal (m : Z) (k : nat) : option float :=
  if (m <? 2 ^ 53) && (k <=? 18)%nat then
    Some (PrimFloat.div (PrimFloat.of_uint63 (Uint63.of_Z m))
                        (PrimFloat.of_uint63 (Uint63.of_Z (10 ^ Z.of_nat k))))
  else None.

Definition of_str (s : string) : option float :=
  match decimal s with
  | Some (m, k) => of_decimal m k
  | None => None
  end.

Definition of_int (z : Z) : option float :=
  match SpecFloat.binary_normalize 53 1024 z 0 false with
  | SpecFloat.S754_infinity _ => None
  | sf => Some (SF2Prim sf)
  end.

Definition repr (v : pyobj float) : string :=
  match v with
  | PyNone => "None"
  | PyBool true => "True"
  | PyBool false => "False"
  | PyInt z => pretty z
  | PyStr s => "'" +:+ s +:+ "'"
  | PyFloat _ | PyList _ | PyDict _ => "<object>"
  end.

Definition python : Python float :=
  {| float_of_str := of_str; float_of_int := of_int; py_repr := repr |}.

End Binary64.

(** ** Outcomes without effects *)

(** [load_config] logs nothing and sends nothing: its computations are plain
    outcomes. *)
#[export] Instance result_ret : MRet result := fun A => @Return A.
#[export] Instance result_bind : MBind result :=
  fun A B k r => match r with Return a => k a | Raise e => Raise e end.

Definition catch {A} (body : result A) (handler : exn -> result A) : result A :=
  match body with
  | Return a => Return a
  | Raise e => handler e
  end.

(** An optional value as an outcome, raising [e] when it is absent. *)
Definition or_raise {A} (e : exn) (o : option A) : result A :=
  match o with Some a => Return a | None => Raise e end.

(** ** The process environment and the file system *)

(** [os.environ], in iteration order. *)
Definition environ : Type := list (string * string).

Fixpoint os_getenv (env : environ) (name : string) : option string :=
  match env with
  | [] => None
  | (k, v) :: env' => if String.eqb k name then Some v else os_getenv env' name
  end.

(** A regular file that can be read is represented by what [yaml.safe_load]
    makes of its content: a YAMLError with its diagnostic, or the decoded
    document. *)
Inductive yaml_result (F : Type) : Type :=
  | Malformed (diag : string)
  | Document (doc : pyobj F).

Arguments Malformed {F} diag.
Arguments Document {F} doc.

(** What exists at a path: a directory, a file that [open] or the read
    refuses with an exception (PermissionError when access is denied,
    UnicodeDecodeError when the bytes are not text in the encoding of
    [open]), or a file whose text reaches [yaml.safe_load]. *)
Inductive node (F : Type) : Type :=
  | Directory
  | Unreadable (e : exn)
  | File (content : yaml_result F).

Arguments Directory {F}.
Arguments Unreadable {F} e.
Arguments File {F} content.

Record process (F : Type) : Type := {
  env : environ;
  (** [Path(__file__).parent.parent.parent], the project root *)
  project_root : string;
  (** what exists at a path *)
  files : string -> option (node F)
}.

Arguments env {F} p.
Arguments project_root {F} p.
Arguments files {F} p.

(** ** pydantic and pydantic-settings *)

(** What config.py leaves to the libraries: validation of a string as an
    [HttpUrl] (giving the URL object), the lax-mode validators of [int] and
    [float] fields, [json.loads] as the settings source applies it to the
    environment value of a complex field, the rendering [str(e)] of a
    ValidationError, and [str.lower], which the settings source applies to
    the names of the environment variables.

    [BaseSettings.__init__] has parameters of its own besides the field
    values ([_env_prefix], [_env_file], [_secrets_dir], [_case_sensitive] and
    others, depending on the release): a keyword argument with such a name is
    bound to the parameter and is no field value.  [init_option] tells these
    names, and [sources_with] is what the settings sources give when the
    initialiser is called with such options (another prefix, a dotenv file, a
    secrets directory), or the exception they raise. *)
Class Pydantic (F Url : Type) : Type := {
  validate_HttpUrl : string -> option Url;
  validate_int : pyobj F -> option Z;
  validate_float : pyobj F -> option F;
  json_loads : string -> option (pyobj F);
  ValidationError_str : list string -> string;
  str_lower : string -> string;
  init_option : string -> bool;
  sources_with : gmap string (pyobj F) -> process F -> result (gmap string (pyobj F))
}.

(** ** app/core/config.py *)

Inductive AlertPriority : Type := LOW | NORMAL | HIGH.

Definition AlertPriority_value (p : AlertPriority) : Z :=
  match p with LOW => 0 | NORMAL => 1 | HIGH => 2 end.

Record AlertConfig (F : Type) : Type := {
  threshold : F;
  duration : string;
  priority : AlertPriority
}.

Record Metric (F : Type) : Type := {
  title : string;
  query : string;
  unit : string;
  alert : option (AlertConfig F)
}.

Record Dashboard (F : Type) : Type := {
  name : string;
  refresh_interval : Z;
  metrics : list (Metric F)
}.

Record YampConfig (F Url : Type) : Type := {
  prometheus_url : Url;
  pushover_token : string;
  pushover_user : string;
  dashboards : list (Dashboard F)
}.

Arguments Build_AlertConfig {F} threshold duration priority.
Arguments Build_Metric {F} title query unit alert.
Arguments Build_Dashboard {F} name refresh_interval metrics.
Arguments Build_YampConfig {F Url} prometheus_url pushover_token pushover_user dashboards.
Arguments prometheus_url {F Url} y.
Arguments pushover_token {F Url} y.
Arguments pushover_user {F Url} y.
Arguments dashboards {F Url} y.

(** The three raise sites of [load_config], under the names the
    specification gives them. *)
Definition ConfigNotFound (path : string) : exn :=
  ConfigError ("Config file not found at " +:+ path) None.

Definition ConfigParseError (diag : string) : exn :=
  ConfigError ("Error parsing YAML file: " +:+ diag) (Some (YAMLError diag)).

Definition ConfigValidationError {F Url} `{!Pydantic F Url} (locs : list string) : exn :=
  ConfigError ("Configuration validation error: " +:+ ValidationError_str locs)
              (Some (ValidationError locs)).

Section Models.
Context {F Url : Type} `{!Pydantic F Url}.

(** A [str] field accepts a string, as it is (also the empty one), and no
    other value of [pyobj]. *)
Definition validate_str (v : pyobj F) : option string :=
  match v with
  | PyStr s => Some s
  | _ => None
  end.

(** A field with a default: used when the key is absent. *)
Definition optional_field {A} (m : gmap string (pyobj F)) (key : string)
    (dflt : A) (validate : pyobj F -> option A) : option A :=
  match m !! key with
  | Some v => validate v
  | None => Some dflt
  end.

Definition required_field {A} (m : gmap string (pyobj F)) (key : string)
    (validate : pyobj F -> option A) : option A :=
  match m !! key with
  | Some v => validate v
  | None => None
  end.

(** [list[T]] *)
Definition validate_list {A} (validate : pyobj F -> option A) (v : pyobj F)
    : option (list A) :=
  match v with
  | PyList l => mapM validate l
  | _ => None
  end.

(** An [IntEnum] member is found by its integer value. *)
Definition validate_AlertPriority (v : pyobj F) : option AlertPriority :=
  match validate_int v with
  | Some 0 => Some LOW
  | Some 1 => Some NORMAL
  | Some 2 => Some HIGH
  | _ => None
  end.

Definition validate_AlertConfig (v : pyobj F) : option (AlertConfig F) :=
  match v with
  | PyDict m =>
      threshold ← required_field m "threshold" validate_float;
      duration ← optional_field m "duration" "5m" validate_str;
      priority ← optional_field m "priority" NORMAL validate_AlertPriority;
      Some (Build_AlertConfig threshold duration priority)
  | _ => None
  end.

(** [AlertConfig | None] *)
Definition validate_alert (v : pyobj F) : option (option (AlertConfig F)) :=
  match v with
  | PyNone => Some None
  | _ => Some <$> validate_AlertConfig v
  end.

Definition validate_Metric (v : pyobj F) : option (Metric F) :=
  match v with
  | PyDict m =>
      title ← required_field m "title" validate_str;
      query ← required_field m "query" validate_str;
      unit ← optional_field m "unit" "" validate_str;
      alert ← optional_field m "alert" None validate_alert;
      Some (Build_Metric title query unit alert)
  | _ => None
  end.

(** [Field(default=30, gt=0)] *)
Definition validate_refresh_interval (v : pyobj F) : option Z :=
  z ← validate_int v;
  if 0 <? z then Some z else None.

Definition validate_Dashboard (v : pyobj F) : option (Dashboard F) :=
  match v with
  | PyDict m =>
      name ← required_field m "name" validate_str;
      refresh_interval ← optional_field m "refresh_interval" 30 validate_refresh_interval;
      metrics ← required_field m "metrics" (validate_list validate_Metric);
      Some (Build_Dashboard name refresh_interval metrics)
  | _ => None
  end.

Definition validate_prometheus_url (v : pyobj F) : option Url :=
  match v with
  | PyStr s => validate_HttpUrl s
  | _ => None
  end.
End Models.

Section Settings.
Context {F Url : Type} `{!Pydantic F Url}.

(** The fields of [YampConfig], with whether pydantic-settings treats the
    field as complex (decoded from JSON when it comes from the environment). *)
Definition YampConfig_fields : list (string * bool) :=
  [("prometheus_url", false); ("pushover_token", false);
   ("pushover_user", false); ("dashboards", true)].

(** The environment as the settings source reads it (case-insensitive):
    names lowercased, a later variable replacing an earlier one with the same
    lowercased name. *)
Definition env_vars (e : environ) : gmap string string :=
  foldl (fun vars kv => <[str_lower kv.1 := kv.2]> vars) ∅ e.

(** [env_prefix="YAMP_"] *)
Definition env_name (field : string) : string := str_lower ("YAMP_" +:+ field).

(** The value of the environment for a field that is a plain string. *)
Definition env_str (vars : gmap string string) (field : string) : option (pyobj F) :=
  PyStr <$> vars !! env_name field.

(** The value the environment source has for one field.  The value of a
    complex field is decoded from JSON: a decoding failure is a SettingsError,
    and a decoded [None] counts as no value. *)
Definition env_field (vars : gmap string string) (field : string) (complex : bool)
    : result (option (pyobj F)) :=
  match vars !! env_name field with
  | None => Return None
  | Some s =>
      if complex then
        match json_loads s with
        | Some PyNone => Return None
        | Some v => Return (Some v)
        | None => Raise (SettingsError field)
        end
      else Return (Some (PyStr s))
  end.

(** [data[field] = v], when the source has a value. *)
Definition supply (field : string) (v : option (pyobj F)) (data : gmap string (pyobj F))
    : gmap string (pyobj F) :=
  match v with
  | Some x => <[field := x]> data
  | None => data
  end.

Fixpoint env_settings (vars : gmap string string) (fields : list (string * bool))
    (data : gmap string (pyobj F)) : result (gmap string (pyobj F)) :=
  match fields with
  | [] => Return data
  | (field, complex) :: fields' =>
      v ← env_field vars field complex;
      env_settings vars fields' (supply field v data)
  end.

(** [deep_update(mapping, updating)]: the keys of [updating] replace those of
    [mapping], except that two dictionaries under the same key are merged.
    The library merges them recursively; one level is written here, since no
    field of [YampConfig] accepts a dictionary and the merged dictionary is
    rejected whatever it holds. *)
Definition deep_update (mapping updating : gmap string (pyobj F))
    : gmap string (pyobj F) :=
  union_with
    (fun new old =>
       Some (match old, new with
             | PyDict a, PyDict b => PyDict (b ∪ a)
             | _, _ => new
             end))
    updating mapping.

(** Keys of the input of the model that are not fields of the model
    ([extra='forbid'], the default of [BaseSettings]). *)
Definition extra_keys (data : gmap string (pyobj F)) : list string :=
  filter (fun k => k ∉ YampConfig_fields.*1) (map_to_list data).*1.

(** The error location of a field that is missing or invalid. *)
Definition error_at {A} (field : string) (validated : option A) : list string :=
  match validated with
  | Some _ => []
  | None => [field]
  end.

(** Validation of the merged input: every field is checked, and the errors
    are raised together. *)
Definition YampConfig_validate (data : gmap string (pyobj F))
    : result (YampConfig F Url) :=
  let url := required_field data "prometheus_url" validate_prometheus_url in
  let token := required_field data "pushover_token" validate_str in
  let user := required_field data "pushover_user" validate_str in
  let boards := required_field data "dashboards" (validate_list validate_Dashboard) in
  match url, token, user, boards, extra_keys data with
  | Some u, Some t, Some us, Some ds, [] => Return (Build_YampConfig u t us ds)
  | _, _, _, _, extras =>
      Raise (ValidationError
               (error_at "prometheus_url" url ++ error_at "pushover_token" token ++
                error_at "pushover_user" user ++ error_at "dashboards" boards ++
                extras))
  end.

(** The keyword arguments that [BaseSettings.__init__] binds to its own
    parameters, and those it takes as field values. *)
Definition init_options (kwargs : gmap string (pyobj F)) : gmap string (pyobj F) :=
  filter (fun kv => init_option kv.1 = true) kwargs.

Definition init_values (kwargs : gmap string (pyobj F)) : gmap string (pyobj F) :=
  filter (fun kv => init_option kv.1 = false) kwargs.

(** What the sources below the initialiser arguments give.  Without options
    the configuration of the class applies: the environment variables with the
    prefix [YAMP_], no dotenv file and no secrets directory. *)
Definition settings_sources (p : process F) (options : gmap string (pyobj F))
    : result (gmap string (pyobj F)) :=
  match map_to_list options with
  | [] => env_settings (env_vars (env p)) YampConfig_fields ∅
  | _ :: _ => sources_with options p
  end.

(** [YampConfig] called on the unpacked [config_data], which must be a
    mapping: the field values among the keyword arguments have priority over
    what the other sources give (the order of the sources of [BaseSettings]:
    initialiser arguments first, then environment variables), and the merged
    input is validated. *)
Definition YampConfig_init (p : process F) (config_data : pyobj F)
    : result (YampConfig F Url) :=
  match config_data with
  | PyDict kwargs =>
      state ← settings_sources p (init_options kwargs);
      YampConfig_validate (deep_update state (init_values kwargs))
  | _ => Raise TypeError
  end.

Definition default_config_path (root : string) : string :=
  root +:+ "/config/yamp.yaml".

Definition get_config_path (p : process F) : string :=
  match os_getenv (env p) "YAMP_CONFIG_PATH" with
  | Some env_path =>
      if String.eqb env_path "" then default_config_path (project_root p)
      else env_path
  | None => default_config_path (project_root p)
  end.

(** [with path.open("r") as f: config_data = yaml.safe_load(f)], inside the
    [try]: whatever it raises meets the [except] clauses. *)
Definition read_yaml (n : node F) : result (pyobj F) :=
  match n with
  | Directory => Raise IsADirectoryError
  | Unreadable e => Raise e
  | File (Malformed diag) => Raise (YAMLError diag)
  | File (Document doc) => Return doc
  end.

(** The [except] clauses of [load_config]. *)
Definition wrap_error (e : exn) : result (YampConfig F Url) :=
  match e with
  | YAMLError diag => Raise (ConfigParseError diag)
  | ValidationError locs => Raise (ConfigValidationError locs)
  | _ => Raise e
  end.

Definition load_config (p : process F) : result (YampConfig F Url) :=
  let path := get_config_path p in
  match files p path with
  | None => Raise (ConfigNotFound path)
  | Some n =>
      catch
        (config_data ← read_yaml n;
         YampConfig_init p config_data)
        wrap_error
  end.

(** A document that sets no option of the initialiser: all its keys are
    field values. *)
Definition no_options (kwargs : gmap string (pyobj F)) : Prop :=
  init_options kwargs = ∅.

(** The input of the model after the merge of the sources, when the document
    is the mapping [kwargs] and the sources do not fail. *)
Definition merged_input (p : process F) (kwargs : gmap string (pyobj F))
    : option (gmap string (pyobj F)) :=
  match settings_sources p (init_options kwargs) with
  | Return state => Some (deep_update state (init_values kwargs))
  | Raise _ => None
  end.

(** The data-model invariant, on the merged input [data] and the
    configuration built from it: the base address is a well-formed absolute
    URL (a string that the [HttpUrl] validation accepts, giving the
    configuration's URL), and each credential is a string, the
    configuration's. *)
Definition valid_url_field (v : option (pyobj F)) (u : Url) : Prop :=
  exists s, v = Some (PyStr s) /\ validate_HttpUrl s = Some u.

Definition string_field (v : option (pyobj F)) (s : string) : Prop :=
  v = Some (PyStr s).

(** The value of a secret field after the merge: the file's value when the
    file has the key (it must then be a string), the environment's
    otherwise. *)
Definition file_or_env (file : option (pyobj F)) (from_env : string) : option string :=
  match file with
  | Some v => validate_str v
  | None => Some from_env
  end.
End Settings.

(** ** A concrete validator interface, for examples

    URLs are kept as strings: [validate_HttpUrl] accepts [http://] or
    [https://] followed by a non-empty remainder and gives the URL with the
    path [/] when it has none.  [int] and [float] fields accept integers (and
    floats, for [float]) as they are; the further lax-mode conversions are
    left out.  The environments of the examples set no [YAMP_DASHBOARDS], so
    the JSON decoder is never consulted; this one rejects every string.
    [str_lower] lowercases the letters A to Z and keeps every other
    character, which is [str.lower] on the ASCII names of the examples only.
    [init_option] holds the parameter names of [BaseSettings.__init__] in
    pydantic-settings 2.0 (later releases add more); no document of the
    examples has such a key, so [sources_with] is never consulted, and this
    one raises. *)
Module Example.

Definition lower_ascii (c : ascii) : ascii :=
  let n := nat_of_ascii c in
  if (65 <=? n)%nat && (n <=? 90)%nat then ascii_of_nat (n + 32) else c.

Fixpoint lower (s : string) : string :=
  match s with
  | "" => ""
  | String c s' => String (lower_ascii c) (lower s')
  end.

Definition option_names : list string :=
  ["__pydantic_self__"; "_case_sensitive"; "_env_prefix"; "_env_file";
   "_env_file_encoding"; "_env_nested_delimiter"; "_secrets_dir"].

Fixpoint strip_prefix (pre s : string) : option string :=
  match pre, s with
  | "", _ => Some s
  | String a pre', String b s' =>
      if Ascii.eqb a b then strip_prefix pre' s' else None
  | String _ _, "" => None
  end.

Fixpoint has_slash (s : string) : bool :=
  match s with
  | "" => false
  | String c s' => Ascii.eqb c "/"%char || has_slash s'
  end.

Definition http_url (s : string) : option string :=
  let rest :=
    match strip_prefix "http://" s with
    | Some r => Some r
    | None => strip_prefix "https://" s
    end in
  match rest with
  | Some "" | None => None
  | Some r => Some (if has_slash r then s else s +:+ "/")
  end.

Definition int_strict (v : pyobj float) : option Z :=
  match v with PyInt z => Some z | _ => None end.

Definition float_strict (v : pyobj float) : option float :=
  match v with
  | PyFloat f => Some f
  | PyInt z => Binary64.of_int z
  | _ => None
  end.

Definition pydantic : Pydantic float string :=
  {| validate_HttpUrl := http_url;
     validate_int := int_strict;
     validate_float := float_strict;
     json_loads := fun _ => None;
     ValidationError_str := fun locs => String.concat ", " locs;
     str_lower := lower;
     init_option := fun k => bool_decide (k ∈ option_names);
     sources_with := fun _ _ => Raise TypeError |}.

(** *** Responses of the query API *)

(** A string between double quotes, for writing JSON text. *)
Definition q (s : string) : string :=
  String (ascii_of_nat 34) s +:+ String (ascii_of_nat 34) "".

(** A server that answers every request with status 200 and one body. *)
Definition answers {F} (body_text : string) (body : pyobj F) : network F :=
  fun _ _ => Replied {| status_code := 200; text := body_text; json_body := Json body |}.

(** A client inside its [async with] block. *)
Definition client : PrometheusClient := __aenter__ (__init__ "http://localhost:9090").

Definition lxc_labels {F} : pyobj F := PyDict {[ "instance" := PyStr "lxc-01" ]}.

(** [{"status":"success","data":{"result":[{"metric":{"instance":"lxc-01"},"value":[0,"0.85"]}]}}] *)
Definition success_body {F} : gmap string (pyobj F) :=
  {[ "status" := PyStr "success";
     "data" := PyDict {[ "result" := PyList
       [PyDict {[ "metric" := lxc_labels;
                  "value" := PyList [PyInt 0; PyStr "0.85"] ]}] ]} ]}.

Definition success_text : string :=
  "{" +:+ q "status" +:+ ":" +:+ q "success" +:+ "," +:+ q "data" +:+ ":{" +:+
  q "result" +:+ ":[{" +:+ q "metric" +:+ ":{" +:+ q "instance" +:+ ":" +:+
  q "lxc-01" +:+ "}," +:+ q "value" +:+ ":[0," +:+ q "0.85" +:+ "]}]}}".

(** [{"status":"error","error":"bad_data"}] *)
Definition error_body {F} : gmap string (pyobj F) :=
  {[ "status" := PyStr "error"; "error" := PyStr "bad_data" ]}.

Definition error_text : string :=
  "{" +:+ q "status" +:+ ":" +:+ q "error" +:+ "," +:+ q "error" +:+ ":" +:+
  q "bad_data" +:+ "}".

(** [{"data":{"result":[]}}]: no status field *)
Definition no_status_body {F} : gmap string (pyobj F) :=
  {[ "data" := PyDict {[ "result" := PyList [] ]} ]}.

Definition no_status_text : string :=
  "{" +:+ q "data" +:+ ":{" +:+ q "result" +:+ ":[]}}".

(** [{"metric":{"instance":"lxc-01"}}]: a series entry without a value *)
Definition no_value_item {F} : gmap string (pyobj F) :=
  {[ "metric" := lxc_labels ]}.

(** [{"metric":{"instance":"lxc-01"},"value":[0]}]: a value array of length 1 *)
Definition short_value_item {F} : gmap string (pyobj F) :=
  {[ "metric" := lxc_labels; "value" := PyList [PyInt 0] ]}.

(** [{"status":"success","data":{"result":[{"metric":{"instance":"lxc-01"},"value":[0,null]}]}}] *)
Definition null_value_body {F} : pyobj F :=
  PyDict {[ "status" := PyStr "success";
            "data" := PyDict {[ "result" := PyList
              [PyDict {[ "metric" := lxc_labels;
                         "value" := PyList [PyInt 0; PyNone] ]}] ]} ]}.

Definition null_value_text : string :=
  "{" +:+ q "status" +:+ ":" +:+ q "success" +:+ "," +:+ q "data" +:+ ":{" +:+
  q "result" +:+ ":[{" +:+ q "metric" +:+ ":{" +:+ q "instance" +:+ ":" +:+
  q "lxc-01" +:+ "}," +:+ q "value" +:+ ":[0,null]}]}}".

(** *** Configuration files *)

(** A process started with the path override and both secrets in its
    environment, and one file, at that path. *)
Definition process_with (doc : pyobj float) : process float :=
  {| env := [("YAMP_CONFIG_PATH", "/etc/yamp.yaml");
             ("YAMP_PUSHOVER_TOKEN", "token123");
             ("YAMP_PUSHOVER_USER", "user456")];
     project_root := "/opt/yamp";
     files := fun path =>
       if String.eqb path "/etc/yamp.yaml" then Some (File (Document doc)) else None |}.

(** The same process, with no file anywhere. *)
Definition process_without_file : process float :=
  {| env := [("YAMP_CONFIG_PATH", "/etc/yamp.yaml");
             ("YAMP_PUSHOVER_TOKEN", "token123");
             ("YAMP_PUSHOVER_USER", "user456")];
     project_root := "/opt/yamp";
     files := fun _ => None |}.

(** [prometheus_url: "http://localhost:9090"], [dashboards: []] *)
Definition plain_doc : gmap string (pyobj float) :=
  {[ "prometheus_url" := PyStr "http://localhost:9090";
     "dashboards" := PyList [] ]}.

(** The same, with [pushover_token: "filetoken"] in the file. *)
Definition doc_with_token : gmap string (pyobj float) :=
  {[ "prometheus_url" := PyStr "http://localhost:9090";
     "pushover_token" := PyStr "filetoken";
     "dashboards" := PyList [] ]}.

(** The same, with [pushover_token: 12345] in the file. *)
Definition doc_with_numeric_token : gmap string (pyobj float) :=
  {[ "prometheus_url" := PyStr "http://localhost:9090";
     "pushover_token" := PyInt 12345;
     "dashboards" := PyList [] ]}.


End Example.

(** ** Further servers, entries and files, for examples *)
Module Scenario.

(** A server that cannot be reached. *)
Definition unreachable {F} : network F :=
  fun _ _ => Failed "All connection attempts failed".

(** A server that answers every request with status 500 and a plain text. *)
Definition failing {F} : network F :=
  fun _ _ => Replied {| status_code := 500; text := "Internal Server Error";
                        json_body := Undecodable JSONDecodeError |}.

(** A server that answers with status 200 and a body that is not JSON. *)
Definition garbled {F} : network F :=
  fun _ _ => Replied {| status_code := 200; text := "<html>";
                        json_body := Undecodable JSONDecodeError |}.

(** The three entries of the unit test of [_transform_data]: one with the
    value "1.23", one with the value "not-a-float", one with a value array of
    length 1. *)
Definition good_entry {F} : gmap string (pyobj F) :=
  {[ "metric" := PyDict {[ "instance" := PyStr "good" ]};
     "value" := PyList [PyInt 0; PyStr "1.23"] ]}.

Definition bad_entry {F} : gmap string (pyobj F) :=
  {[ "metric" := PyDict {[ "instance" := PyStr "bad" ]};
     "value" := PyList [PyInt 0; PyStr "not-a-float"] ]}.

Definition short_entry {F} : gmap string (pyobj F) :=
  {[ "metric" := PyDict {[ "instance" := PyStr "no-value" ]};
     "value" := PyList [PyInt 0] ]}.

Definition three_entries {F} : list (pyobj F) :=
  [PyDict good_entry; PyDict bad_entry; PyDict short_entry].

Definition three_entries_body {F} : pyobj F :=
  PyDict {[ "data" := PyDict {[ "result" := PyList three_entries ]} ]}.

(** An entry whose value is a JSON number, and no labels. *)
Definition numeric_entry : gmap string (pyobj float) :=
  {[ "value" := PyList [PyInt 0; PyFloat 0.5%float] ]}.

(** A body whose [data] is [null]. *)
Definition null_data_body {F} : gmap string (pyobj F) :=
  {[ "status" := PyStr "success"; "data" := PyNone ]}.

(** The environment of the examples, and the same without the secrets. *)
Definition full_env : environ :=
  [("YAMP_CONFIG_PATH", "/etc/yamp.yaml");
   ("YAMP_PUSHOVER_TOKEN", "token123");
   ("YAMP_PUSHOVER_USER", "user456")].

Definition bare_env : environ := [("YAMP_CONFIG_PATH", "/etc/yamp.yaml")].

(** A process with a given environment and one path, holding [n]. *)
Definition process_of (e : environ) (n : node float) : process float :=
  {| env := e;
     project_root := "/opt/yamp";
     files := fun path => if String.eqb path "/etc/yamp.yaml" then Some n else None |}.

(** [prometheus_url], [dashboards] and an unknown key [theme]. *)
Definition doc_with_extra_key : gmap string (pyobj float) :=
  {[ "prometheus_url" := PyStr "http://localhost:9090";
     "dashboards" := PyList [];
     "theme" := PyStr "dark" ]}.

(** A metric with an alert that sets only the threshold. *)
Definition cpu_alert : gmap string (pyobj float) :=
  {[ "threshold" := PyInt 90 ]}.

Definition cpu_metric : gmap string (pyobj float) :=
  {[ "title" := PyStr "CPU"; "query" := PyStr "node_cpu" ]}.

(** A dashboard refreshed every 15 seconds. *)
Definition test_dashboard : gmap string (pyobj float) :=
  {[ "name" := PyStr "Test Dash";
     "refresh_interval" := PyInt 15;
     "metrics" := PyList [PyDict cpu_metric] ]}.

Definition doc_with_dashboard : gmap string (pyobj float) :=
  {[ "prometheus_url" := PyStr "http://localhost:9090";
     "dashboards" := PyList [PyDict test_dashboard] ]}.

End Scenario.

(** * Properties of the query client *)

(** Unfolds the monad so that a computation on known values reduces. *)
Ltac run :=
  unfold mbind, M_bind, bind, try_except, ret, raise, emit, mret, M_ret,
    result_bind, result_ret, catch in *;
  cbn in *.

Lemma outcome_bind {F A B} (m : M F A) (k : A -> M F B) :
  outcome (bind m k) =
  match outcome m with
  | Return a => outcome (k a)
  | Raise e => Raise e
  end.
Proof.
  destruct m as [evs [a | e]]; cbn; [| done].
  by destruct (k a).
Qed.

Lemma events_bind {F A B} (m : M F A) (k : A -> M F B) :
  events (bind m k) =
  match outcome m with
  | Return a => events m ++ events (k a)
  | Raise e => events m
  end.
Proof.
  destruct m as [evs [a | e]]; cbn; [| done].
  by destruct (k a).
Qed.

Lemma json_Some {F} (r : Response F) (v : pyobj F) :
  json r = Some v -> json_body r = Json v.
Proof. unfold json. destruct (json_body r); by intros [= <-]. Qed.

Lemma for_each_cons {F A S} (body : S -> A -> M F S) (x : A) (xs : list A) (s : S) :
  for_each body (x :: xs) s = bind (body s x) (for_each body xs).
Proof. reflexivity. Qed.

#[local] Arguments _transform_data : simpl never.

Section PrometheusProperties.
Context {F : Type} `{!Python F}.

(** One iteration of the loop does one of three things: it appends a sample
    that depends on the entry only, it logs a warning and leaves the list as
    it is, or it raises an exception that the [except] clause does not
    name. *)
Lemma transform_item_cases (results : list (sample F)) (item : pyobj F) :
  (exists s, emitted item = Some s
     /\ transform_item results item = ([], Return (results ++ [s])))
  \/ (emitted item = None
      /\ exists e, (e = ValueError \/ e = IndexError)
         /\ transform_item results item = ([Log (LogUnparsable item e)], Return results))
  \/ (emitted item = None
      /\ exists e, unhandled e /\ transform_item results item = ([], Raise e)).
Proof.
  unfold emitted, outcome, transform_item, dict_get, getitem_int, py_float, unhandled.
  run.
  destruct item; run; eauto 10.
  destruct (default _ (m !! "value")) as [ | | | | s | l | ]; run; eauto 10.
  - destruct (String.get 1 s); run; eauto 10.
    destruct (float_of_str _); run; eauto 10.
  - destruct (l !! 1%nat) as [x|]; run; eauto 10.
    destruct x as [ | [] | | | | | ]; run; eauto 10;
      match goal with
      | |- context [float_of_str ?s] => destruct (float_of_str s)
      | |- context [float_of_int ?z] => destruct (float_of_int z)
      end; run; eauto 10.
Qed.

Lemma omap_emitted_cons (item : pyobj F) (items : list (pyobj F)) :
  omap emitted (item :: items) =
  match emitted item with
  | Some s => s :: omap emitted items
  | None => omap emitted items
  end.
Proof. reflexivity. Qed.

(** When the loop returns, it has appended the emitted samples, in the order
    of the entries. *)
Lemma for_each_transform_returns (items : list (pyobj F)) :
  forall acc out : list (sample F),
    outcome (for_each transform_item items acc) = Return out ->
    out = acc ++ omap emitted items.
Proof.
  induction items as [| item items IH]; intros acc out.
  - cbn. intros [= <-]. by rewrite app_nil_r.
  - rewrite for_each_cons, outcome_bind, omap_emitted_cons.
    destruct (transform_item_cases acc item)
      as [(s & Hs & ->) | [(Hs & e & _ & ->) | (Hs & e & _ & ->)]];
      rewrite Hs; cbn; [| apply IH | done].
    intros Hout. rewrite (IH _ _ Hout). by rewrite <- app_assoc.
Qed.


(** What the loop raises is not an exception of httpx. *)
Lemma for_each_transform_raises (items : list (pyobj F)) :
  forall acc e,
    outcome (for_each transform_item items acc) = Raise e -> unhandled e.
Proof.
  induction items as [| item items IH]; intros acc e; [done |].
  rewrite for_each_cons, outcome_bind.
  destruct (transform_item_cases acc item)
    as [(s & _ & ->) | [(_ & e' & _ & ->) | (_ & e' & He' & ->)]]; cbn.
  - apply IH.
  - apply IH.
  - by intros [= <-].
Qed.

(** The events of the loop are warnings. *)
Lemma for_each_transform_events (items : list (pyobj F)) :
  forall acc, Forall (fun ev => is_warning ev = true)
                (events (for_each transform_item items acc)).
Proof.
  induction items as [| item items IH]; intros acc; [constructor |].
  rewrite for_each_cons, events_bind.
  destruct (transform_item_cases acc item)
    as [(s & _ & ->) | [(_ & e' & _ & ->) | (_ & e' & _ & ->)]]; cbn.
  - apply IH.
  - constructor; [done | apply IH].
  - constructor.
Qed.

Lemma result_array_raises (raw : pyobj F) (e : exn) :
  outcome (result_array raw) = Raise e -> unhandled e.
Proof.
  unfold result_array, dict_get, py_iter, unhandled. run.
  destruct raw; run; try (intros [= <-]; tauto).
  destruct (default _ (m !! "data")); run; try (intros [= <-]; tauto).
  destruct (default _ (m0 !! "result")); run; try (intros [= <-]; tauto); done.
Qed.

Lemma result_array_events (raw : pyobj F) : events (result_array raw) = [].
Proof.
  unfold result_array, dict_get, py_iter. run.
  destruct raw; run; try done.
  destruct (default _ (m !! "data")); run; try done.
  by destruct (default _ (m0 !! "result")).
Qed.

Lemma _transform_data_raises (raw : pyobj F) (e : exn) :
  outcome (_transform_data raw) = Raise e -> unhandled e.
Proof.
  unfold _transform_data, mbind, M_bind.
  rewrite outcome_bind.
  destruct (outcome (result_array raw)) as [items | e'] eqn:E.
  - apply for_each_transform_raises.
  - intros [= <-]. by apply (result_array_raises raw).
Qed.

(** On a 2xx response whose body is a dictionary with the status "success",
    [fetch_metric] sends one request and then does what [_transform_data]
    does on the body. *)
Lemma fetch_metric_success (net : network F) (self : PrometheusClient)
    (query : string) (r : Response F) (m : gmap string (pyobj F)) :
  _client self = Some Opened ->
  net (query_url self) query = Replied r ->
  is_success r = true ->
  json r = Some (PyDict m) ->
  m !! "status" = Some (PyStr "success") ->
  fetch_metric net self query =
  (HttpGet (query_url self) query 10 :: events (_transform_data (PyDict m)),
   outcome (_transform_data (PyDict m))).
Proof.
  intros Hc Hnet Hok Hjson Hstatus.
  apply json_Some in Hjson.
  unfold fetch_metric, AsyncClient_get, raise_for_status, Response_json, getitem_str.
  rewrite Hc. run. rewrite Hnet, Hok. cbn. rewrite Hjson, Hstatus. cbn.
  pose proof (_transform_data_raises (PyDict m)) as Hraise.
  destruct (_transform_data (PyDict m)) as [evs [out | e]]; cbn in *; [done |].
  destruct (Hraise e eq_refl) as [-> | [-> | [-> | ->]]]; cbn; by rewrite app_nil_r.
Qed.

End PrometheusProperties.

Section ClientClaims.
Context {F : Type} `{!Python F}.

Lemma ne_str_true (v : pyobj F) (s : string) : v <> PyStr s -> ne_str v s = true.
Proof.
  destruct v as [ | | | | s' | | ]; cbn; try done.
  intros Hne. destruct (String.eqb_spec s' s) as [-> | _]; [by destruct Hne | done].
Qed.

(** What [fetch_metric] does with a 2xx response whose body is a dictionary
    with a status other than "success". *)
Lemma fetch_metric_not_success (net : network F) (self : PrometheusClient)
    (query : string) (r : Response F) (m : gmap string (pyobj F)) (status : pyobj F) :
  _client self = Some Opened ->
  net (query_url self) query = Replied r ->
  is_success r = true ->
  json r = Some (PyDict m) ->
  m !! "status" = Some status ->
  status <> PyStr "success" ->
  fetch_metric net self query =
  ([HttpGet (query_url self) query 10],
   Raise (ApiError (py_str (default (PyStr "Unknown Prometheus API error") (m !! "error"))))).
Proof.
  intros Hc Hnet Hok Hjson Hstatus Hne.
  apply json_Some in Hjson.
  unfold fetch_metric, AsyncClient_get, raise_for_status, Response_json, getitem_str, dict_get.
  rewrite Hc. run. rewrite Hnet, Hok. cbn. rewrite Hjson, Hstatus. cbn.
  by rewrite (ne_str_true _ _ Hne).
Qed.

Lemma string_app_empty_r (s : string) : s +:+ "" = s.
Proof.
  induction s as [| c s IH]; [done |].
  change (String c (s +:+ "") = String c s). by rewrite IH.
Qed.

Lemma ApiError_contains (s : string) : message_contains (ApiError s) s.
Proof.
  unfold message_contains, ApiError.
  exists "Prometheus API error: ", "". by rewrite (string_app_empty_r s).
Qed.

(** An entry with a value array whose second element [float] accepts
    emits a sample with the entry's labels. *)
Lemma transform_item_emits (results : list (sample F)) (m : gmap string (pyobj F))
    (l : list (pyobj F)) (x : pyobj F) (f : F) :
  m !! "value" = Some (PyList l) ->
  l !! 1%nat = Some x ->
  py_float x = ([], Return f) ->
  transform_item results (PyDict m) =
  ([], Return (results ++ [Build_sample (default (PyDict ∅) (m !! "metric")) f])).
Proof.
  intros Hvalue Hx Hf. unfold transform_item, dict_get, getitem_int. run.
  rewrite Hvalue. cbn. rewrite Hx, Hf. done.
Qed.

(** C7.  On a client that is Unbound ([_client] is [None], as after
    construction), [fetch_metric] fails with ClientNotInitialized for every
    query and whatever the server would answer, and produces no event: no
    request is sent. *)
Theorem fetch_metric_unbound (net : network F) (self : PrometheusClient) (query : string) :
  Unbound self ->
  fetch_metric net self query = ([], Raise ClientNotInitialized)
  /\ Forall (fun ev => is_network_call ev = false) (events (fetch_metric net self query)).
Proof.
  unfold Unbound, fetch_metric. intros ->. split; [done | constructor].
Qed.

(** C8.  On a 2xx response whose JSON body has a status field different
    from the string "success", [fetch_metric] fails with ApiError: with the
    body's error string in the message when the body has one, and with the
    placeholder "Unknown Prometheus API error" when the body has no error
    field. *)
Theorem fetch_metric_api_error (net : network F) (self : PrometheusClient)
    (query : string) (r : Response F) (m : gmap string (pyobj F)) (status : pyobj F) :
  _client self = Some Opened ->
  net (query_url self) query = Replied r ->
  is_success r = true ->
  json r = Some (PyDict m) ->
  m !! "status" = Some status ->
  status <> PyStr "success" ->
  (forall s, m !! "error" = Some (PyStr s) ->
     outcome (fetch_metric net self query) = Raise (ApiError s)
     /\ message_contains (ApiError s) s)
  /\ (m !! "error" = None ->
      outcome (fetch_metric net self query) = Raise (ApiError "Unknown Prometheus API error")
      /\ message_contains (ApiError "Unknown Prometheus API error")
                          "Unknown Prometheus API error").
Proof.
  intros Hc Hnet Hok Hjson Hstatus Hne.
  rewrite (fetch_metric_not_success net self query r m status) by done.
  split.
  - intros s ->. split; [done | apply ApiError_contains].
  - intros ->. split; [done | apply ApiError_contains].
Qed.

(** C10.  On a 2xx response whose JSON body is a dictionary without a
    "status" key, the lookup raises KeyError, and this KeyError is what
    [fetch_metric] raises: it is not a [PrometheusClientError], so it is none
    of ApiError, ConnectionError and HttpStatusError. *)
Theorem fetch_metric_missing_status (net : network F) (self : PrometheusClient)
    (query : string) (r : Response F) (m : gmap string (pyobj F)) :
  _client self = Some Opened ->
  net (query_url self) query = Replied r ->
  is_success r = true ->
  json r = Some (PyDict m) ->
  m !! "status" = None ->
  outcome (getitem_str (PyDict m) "status") = Raise KeyError
  /\ fetch_metric net self query = ([HttpGet (query_url self) query 10], Raise KeyError)
  /\ is_PrometheusClientError KeyError = false
  /\ (forall s, KeyError <> ApiError s)
  /\ (forall diag, KeyError <> ConnectionError diag)
  /\ (forall code body, KeyError <> HttpStatusError code body).
Proof.
  intros Hc Hnet Hok Hjson Hstatus.
  apply json_Some in Hjson.
  split; [cbn; by rewrite Hstatus |].
  split; [| done].
  unfold fetch_metric, AsyncClient_get, raise_for_status, Response_json, getitem_str.
  rewrite Hc. run. rewrite Hnet, Hok. cbn. by rewrite Hjson, Hstatus.
Qed.


(** C2, as amended.  A series entry whose value array is present and has
    fewer than two elements is skipped: the iteration on it appends nothing,
    logs one warning, and the loop goes on with the remaining entries, with
    the outcome it has without that entry. *)
Theorem short_value_array_skipped (m : gmap string (pyobj F)) (l : list (pyobj F)) :
  m !! "value" = Some (PyList l) ->
  (length l < 2)%nat ->
  (forall results,
     transform_item results (PyDict m) =
     ([Log (LogUnparsable (PyDict m) IndexError)], Return results))
  /\ emitted (PyDict m) = None
  /\ (forall before after acc,
        outcome (for_each transform_item (before ++ PyDict m :: after) acc) =
        outcome (for_each transform_item (before ++ after) acc)).
Proof.
  intros Hvalue Hlen.
  assert (Hitem : forall results,
             transform_item results (PyDict m) =
             ([Log (LogUnparsable (PyDict m) IndexError)], Return results)).
  { intros results. unfold transform_item, dict_get, getitem_int. run.
    rewrite Hvalue. cbn.
    destruct l as [| x [| y l']]; cbn in *; [done | done | lia]. }
  split; [done |]. split.
  - unfold emitted. by rewrite Hitem.
  - induction before as [| item before IH]; intros after acc.
    + cbn [app]. by rewrite for_each_cons, outcome_bind, Hitem.
    + rewrite <- !app_comm_cons, !for_each_cons, !outcome_bind.
      destruct (outcome (transform_item acc item)); [apply IH | done].
Qed.

(** C4.  A client that has entered the [async with] block and left it,
    whatever exception [exc] ended the block, has released its network
    resource: it is no longer Bound.  But [__aexit__] keeps the reference to
    the closed HTTP client, so the client is not Unbound for the guard of
    [fetch_metric]: a later call passes the guard and fails in the closed
    HTTP client with RuntimeError, sending no request, where the claim has it
    fail with ClientNotInitialized. *)
Theorem fetch_metric_after_aexit (net : network F) (url query : string)
    (exc : option exn) :
  Bound (__aenter__ (__init__ url))
  /\ Released (__aexit__ (__aenter__ (__init__ url)) exc)
  /\ ~ Bound (__aexit__ (__aenter__ (__init__ url)) exc)
  /\ ~ Unbound (__aexit__ (__aenter__ (__init__ url)) exc)
  /\ fetch_metric net (__aexit__ (__aenter__ (__init__ url)) exc) query
     = ([], Raise RuntimeError)
  /\ fetch_metric net (__aexit__ (__aenter__ (__init__ url)) exc) query
     <> ([], Raise ClientNotInitialized).
Proof. unfold Bound, Released, Unbound. cbn. by repeat split. Qed.

End ClientClaims.

(** C3.  The body
    [{"status":"success","data":{"result":[{"metric":{"instance":"lxc-01"},"value":[0,null]}]}}]
    is an API-success response, and on it the normalization raises: the value
    [null] makes [float] raise TypeError, which the [except] clause of the
    loop does not name, and [fetch_metric] raises it after sending the
    request. *)
Theorem fetch_metric_null_value_raises (F : Type) (P : Python F) (query : string) :
  fetch_metric (Example.answers Example.null_value_text Example.null_value_body)
               Example.client query
  = ([HttpGet "http://localhost:9090/api/v1/query" query 10], Raise TypeError).
Proof. reflexivity. Qed.

(** ** The client on concrete responses *)

Section ClientExamples.
#[local] Existing Instance Binary64.python.

(** Python's [float("0.85")], the binary64 number nearest to 0.85. *)
Lemma float_of_str_085 : float_of_str "0.85" = Some 0x1.b333333333333p-1%float.
Proof. reflexivity. Qed.

Lemma fetch_metric_unbound_witness :
  Unbound (__init__ "http://localhost:9090")
  /\ fetch_metric (Example.answers Example.success_text (PyDict Example.success_body))
                  (__init__ "http://localhost:9090") "up"
     = ([], Raise ClientNotInitialized).
Proof.
  split; [reflexivity |].
  apply (fetch_metric_unbound
           (Example.answers Example.success_text (PyDict Example.success_body))
           (__init__ "http://localhost:9090") "up").
  reflexivity.
Defined.

Lemma fetch_metric_api_error_witness :
  Example.error_body (F := float) !! "status" = Some (PyStr "error")
  /\ outcome (fetch_metric (Example.answers Example.error_text (PyDict Example.error_body))
                           Example.client "up")
     = Raise (ApiError "bad_data")
  /\ message_contains (ApiError "bad_data") "bad_data".
Proof.
  split; [reflexivity |].
  apply (fetch_metric_api_error
           (Example.answers Example.error_text (PyDict Example.error_body))
           Example.client "up"
           {| status_code := 200; text := Example.error_text;
              json_body := Json (PyDict Example.error_body) |}
           Example.error_body (PyStr "error"));
    [reflexivity | reflexivity | reflexivity | reflexivity | reflexivity
    | discriminate | reflexivity].
Defined.

Lemma fetch_metric_missing_status_witness :
  Example.no_status_body (F := float) !! "status" = None
  /\ fetch_metric (Example.answers Example.no_status_text (PyDict Example.no_status_body))
                  Example.client "up"
     = ([HttpGet "http://localhost:9090/api/v1/query" "up" 10], Raise KeyError).
Proof.
  split; [reflexivity |].
  apply (fetch_metric_missing_status
           (Example.answers Example.no_status_text (PyDict Example.no_status_body))
           Example.client "up"
           {| status_code := 200; text := Example.no_status_text;
              json_body := Json (PyDict Example.no_status_body) |}
           Example.no_status_body);
    reflexivity.
Defined.


(** The entry [{"metric":{"instance":"lxc-01"}}] has no value array, and the
    normalization does not skip it: it emits a sample with the value 0.0. *)
Lemma missing_value_is_emitted :
  Example.no_value_item (F := float) !! "value" = None
  /\ outcome (_transform_data
                (PyDict {[ "data" := PyDict
                   {[ "result" := PyList [PyDict Example.no_value_item] ]} ]}))
     = Return [Build_sample Example.lxc_labels 0%float]
  /\ ~ skipped (PyDict Example.no_value_item).
Proof.
  split; [reflexivity |]. split; [reflexivity |].
  intros Hskip. specialize (Hskip []). discriminate Hskip.
Qed.

Lemma short_value_array_skipped_witness :
  Example.short_value_item (F := float) !! "value" = Some (PyList [PyInt 0])
  /\ emitted (PyDict Example.short_value_item) = None
  /\ outcome (for_each transform_item
                [PyDict Example.short_value_item;
                 PyDict {[ "metric" := Example.lxc_labels;
                           "value" := PyList [PyInt 0; PyStr "0.85"] ]}] [])
     = outcome (for_each transform_item
                  [PyDict {[ "metric" := Example.lxc_labels;
                             "value" := PyList [PyInt 0; PyStr "0.85"] ]}] []).
Proof.
  split; [reflexivity |].
  destruct (short_value_array_skipped Example.short_value_item [PyInt 0])
    as (_ & Hemitted & Hloop); [reflexivity | cbn; lia |].
  split; [exact Hemitted |].
  exact (Hloop [] _ []).
Defined.

End ClientExamples.

(** * Properties of the configuration loader *)

#[local] Arguments env_settings : simpl never.

Section SettingsProperties.
Context {F Url : Type} `{!Pydantic F Url}.

Lemma env_field_simple (vars : gmap string string) (field : string) :
  env_field vars field false = Return (env_str vars field).
Proof. unfold env_field, env_str. by destruct (vars !! env_name field). Qed.

(** The environment source fails only on the complex field. *)
Lemma env_settings_YampConfig (vars : gmap string string) :
  env_settings vars YampConfig_fields ∅ =
  match env_field vars "dashboards" true with
  | Return boards =>
      Return (supply "dashboards" boards
                (supply "pushover_user" (env_str vars "pushover_user")
                   (supply "pushover_token" (env_str vars "pushover_token")
                      (supply "prometheus_url" (env_str vars "prometheus_url") ∅))))
  | Raise e => Raise e
  end.
Proof.
  unfold YampConfig_fields, env_settings.
  rewrite !env_field_simple. run. reflexivity.
Qed.

Lemma lookup_supply (field : string) (v : option (pyobj F))
    (data : gmap string (pyobj F)) (k : string) :
  supply field v data !! k =
  if decide (field = k) then match v with Some x => Some x | None => data !! k end
  else data !! k.
Proof.
  unfold supply. destruct v as [x |]; [| by case_decide].
  rewrite lookup_insert. by case_decide.
Qed.

(** The keys the environment source supplies are fields of the model. *)
Lemma env_settings_keys (vars : gmap string string) (env_data : gmap string (pyobj F))
    (k : string) :
  env_settings vars YampConfig_fields ∅ = Return env_data ->
  is_Some (env_data !! k) -> k ∈ YampConfig_fields.*1.
Proof.
  rewrite env_settings_YampConfig.
  destruct (env_field vars "dashboards" true) as [boards | e]; [| done].
  intros [= <-]. rewrite !lookup_supply, lookup_empty.
  repeat case_decide; subst; cbn; set_solver.
Qed.

(** For a secret field the environment source supplies the variable's
    value, as a string. *)
Lemma env_settings_secret (vars : gmap string string) (env_data : gmap string (pyobj F))
    (field : string) :
  field = "pushover_token" \/ field = "pushover_user" ->
  env_settings vars YampConfig_fields ∅ = Return env_data ->
  env_data !! field = PyStr <$> vars !! env_name field.
Proof.
  rewrite env_settings_YampConfig.
  destruct (env_field vars "dashboards" true) as [boards | e]; [| done].
  intros [-> | ->] [= <-]; rewrite !lookup_supply; repeat case_decide; try done;
    unfold env_str; by destruct (vars !! _).
Qed.

(** A key of the file replaces the environment's value, unless both are
    dictionaries. *)
Lemma lookup_deep_update (mapping updating : gmap string (pyobj F)) (k : string) :
  deep_update mapping updating !! k =
  match updating !! k, mapping !! k with
  | Some (PyDict b), Some (PyDict a) => Some (PyDict (b ∪ a))
  | Some new, _ => Some new
  | None, old => old
  end.
Proof.
  unfold deep_update. rewrite lookup_union_with.
  destruct (updating !! k) as [new |], (mapping !! k) as [old |]; cbn; try done.
  - by destruct old, new.
  - by destruct new.
Qed.

Lemma extra_keys_nil (data : gmap string (pyobj F)) :
  (forall k, is_Some (data !! k) -> k ∈ YampConfig_fields.*1) ->
  extra_keys data = [].
Proof.
  intros Hkeys. unfold extra_keys.
  destruct (filter _ _) as [| k ks] eqn:Hfilter; [done |].
  assert (Hk : k ∈ filter (fun k => k ∉ YampConfig_fields.*1) (map_to_list data).*1)
    by (rewrite Hfilter; left).
  apply list_elem_of_filter in Hk as [Hnot Hin].
  apply list_elem_of_fmap in Hin as ([k' v] & -> & Hin).
  apply elem_of_map_to_list in Hin. destruct Hnot. apply Hkeys. by exists v.
Qed.

Lemma extra_keys_fields (data : gmap string (pyobj F)) :
  extra_keys data = [] ->
  forall k, is_Some (data !! k) -> k ∈ YampConfig_fields.*1.
Proof.
  unfold extra_keys. intros Hnil k [v Hk].
  destruct (decide (k ∈ YampConfig_fields.*1)) as [| Hnot]; [done |].
  destruct (filter_nil_not_elem_of _ _ k Hnil Hnot).
  apply list_elem_of_fmap. exists (k, v). split; [done |].
  by apply elem_of_map_to_list.
Qed.

Lemma validate_list_PyList {A} (validate : pyobj F -> option A) (v : pyobj F) (l : list A) :
  validate_list validate v = Some l -> exists items, v = PyList items.
Proof. destruct v; try done. eauto. Qed.

Lemma required_str (data : gmap string (pyobj F)) (k s : string) :
  required_field data k validate_str = Some s <-> string_field (data !! k) s.
Proof.
  unfold required_field, string_field, validate_str.
  destruct (data !! k) as [[ | | | | s' | | ] |]; split; intros; simplify_eq; done.
Qed.

Lemma required_url (data : gmap string (pyobj F)) (u : Url) :
  required_field data "prometheus_url" validate_prometheus_url = Some u
  <-> valid_url_field (data !! "prometheus_url") u.
Proof.
  unfold required_field, valid_url_field, validate_prometheus_url.
  destruct (data !! "prometheus_url") as [[ | | | | s' | | ] |]; split;
    try (intros (s & Hs & Hu)); intros; simplify_eq; eauto.
Qed.

(** Validation succeeds exactly when the four fields validate and there is
    no other key. *)
Lemma YampConfig_validate_Return (data : gmap string (pyobj F)) (cfg : YampConfig F Url) :
  YampConfig_validate data = Return cfg <->
  required_field data "prometheus_url" validate_prometheus_url = Some (prometheus_url cfg)
  /\ required_field data "pushover_token" validate_str = Some (pushover_token cfg)
  /\ required_field data "pushover_user" validate_str = Some (pushover_user cfg)
  /\ required_field data "dashboards" (validate_list validate_Dashboard) = Some (dashboards cfg)
  /\ extra_keys data = [].
Proof.
  unfold YampConfig_validate.
  destruct (required_field data "prometheus_url" _) as [u |],
           (required_field data "pushover_token" _) as [t |],
           (required_field data "pushover_user" _) as [us |],
           (required_field data "dashboards" _) as [ds |],
           (extra_keys data) as [| k ks];
    split; try (intros [= <-]; done);
    try (intros (? & ? & ? & ? & ?); simplify_eq; try done).
  by destruct cfg; cbn in *; simplify_eq.
Qed.

(** Validation fails with a ValidationError only, which lists the fields in
    error and the extra keys. *)
Lemma YampConfig_validate_Raise (data : gmap string (pyobj F)) (e : exn) :
  YampConfig_validate data = Raise e ->
  exists locs, e = ValidationError locs
    /\ locs = error_at "prometheus_url"
                (required_field data "prometheus_url" validate_prometheus_url) ++
              error_at "pushover_token" (required_field data "pushover_token" validate_str) ++
              error_at "pushover_user" (required_field data "pushover_user" validate_str) ++
              error_at "dashboards"
                (required_field data "dashboards" (validate_list validate_Dashboard)) ++
              extra_keys data.
Proof.
  unfold YampConfig_validate.
  destruct (required_field data "prometheus_url" _) as [u |],
           (required_field data "pushover_token" _) as [t |],
           (required_field data "pushover_user" _) as [us |],
           (required_field data "dashboards" _) as [ds |],
           (extra_keys data) as [| k ks];
    intros [= <-]; eauto.
Qed.

Ltac validate_cases :=
  match goal with
  | |- context [YampConfig_validate ?d] =>
      let E := fresh "E" in
      destruct (YampConfig_validate d) as [? | ?] eqn:E; [done |];
      apply YampConfig_validate_Raise in E as (? & -> & _); done
  end.

(** A document without options of the initialiser is taken whole as field
    values, and merged with the environment. *)
Lemma init_values_no_options (kwargs : gmap string (pyobj F)) :
  no_options kwargs -> init_values kwargs = kwargs.
Proof.
  unfold no_options, init_options, init_values. intros Hnone.
  apply map_filter_id. intros k v Hk. cbn.
  destruct (init_option k) eqn:Hopt; [| done].
  assert (Hin : filter (fun kv : string * pyobj F => init_option kv.1 = true) kwargs !! k
                = Some v) by (by apply map_lookup_filter_Some).
  rewrite Hnone in Hin. by rewrite lookup_empty in Hin.
Qed.

Lemma settings_sources_no_options (p : process F) (kwargs : gmap string (pyobj F)) :
  no_options kwargs ->
  settings_sources p (init_options kwargs)
  = env_settings (env_vars (env p)) YampConfig_fields ∅.
Proof.
  unfold no_options, settings_sources. intros ->. by rewrite map_to_list_empty.
Qed.

Lemma merged_input_no_options (p : process F) (kwargs : gmap string (pyobj F)) :
  no_options kwargs ->
  merged_input p kwargs =
  match env_settings (env_vars (env p)) YampConfig_fields ∅ with
  | Return env_data => Some (deep_update env_data kwargs)
  | Raise _ => None
  end.
Proof.
  intros Hnone. unfold merged_input.
  by rewrite settings_sources_no_options, init_values_no_options.
Qed.

(** What [load_config] does when the file holds a mapping: the merged input
    is validated, and a ValidationError is wrapped. *)
Lemma load_config_merged (p : process F) (kwargs data : gmap string (pyobj F)) :
  files p (get_config_path p) = Some (File (Document (PyDict kwargs))) ->
  merged_input p kwargs = Some data ->
  load_config p =
  match YampConfig_validate data with
  | Return cfg => Return cfg
  | Raise (ValidationError locs) => Raise (ConfigValidationError locs)
  | Raise e => Raise e
  end.
Proof.
  intros Hfile. unfold load_config, merged_input, YampConfig_init. rewrite Hfile. run.
  destruct (settings_sources p (init_options kwargs)) as [state | e]; [| done].
  intros [= <-]. cbn. validate_cases.
Qed.

(** When a source fails, its exception meets the [except] clauses. *)
Lemma load_config_unmerged (p : process F) (kwargs : gmap string (pyobj F)) (e : exn) :
  files p (get_config_path p) = Some (File (Document (PyDict kwargs))) ->
  settings_sources p (init_options kwargs) = Raise e ->
  load_config p = wrap_error e.
Proof.
  intros Hfile Hsources. unfold load_config, YampConfig_init. rewrite Hfile. run.
  by rewrite Hsources.
Qed.

(** A configuration is returned only for a file that holds a mapping, after
    a merge that succeeds and a validation that succeeds. *)
Lemma load_config_Return (p : process F) (cfg : YampConfig F Url) :
  load_config p = Return cfg ->
  exists kwargs data,
    files p (get_config_path p) = Some (File (Document (PyDict kwargs)))
    /\ merged_input p kwargs = Some data
    /\ YampConfig_validate data = Return cfg.
Proof.
  unfold load_config.
  destruct (files p (get_config_path p)) as [[| e | [diag | doc]] |] eqn:Hfile; run;
    try done.
  - by destruct e.
  - destruct doc as [ | | | | | | kwargs]; try done.
    unfold YampConfig_init. run.
    destruct (settings_sources p (init_options kwargs)) as [state | e] eqn:Hsources; cbn.
    + destruct (YampConfig_validate _) as [cfg' | e] eqn:Hvalid; cbn.
      * intros [= <-]. exists kwargs, (deep_update state (init_values kwargs)).
        unfold merged_input. by rewrite Hsources.
      * by destruct e.
    + by destruct e.
Qed.

End SettingsProperties.

Section ConfigClaims.
Context {F Url : Type} `{!Pydantic F Url}.

(** C6.  When no file exists at the resolved path, [load_config] fails with
    ConfigNotFound for that path, whatever the environment and the rest of the
    file system hold: nothing is read, parsed or validated.  The error is
    neither a ConfigParseError nor a ConfigValidationError. *)
Theorem load_config_missing_file (p : process F) :
  files p (get_config_path p) = None ->
  load_config p = Raise (ConfigNotFound (get_config_path p))
  /\ (forall diag, load_config p <> Raise (ConfigParseError diag))
  /\ (forall locs, load_config p <> Raise (ConfigValidationError locs)).
Proof.
  intros Hmissing. unfold load_config. rewrite Hmissing.
  split; [done |]. split; intros; discriminate.
Qed.

(** C1, as amended.  For a document that is a mapping with a valid
    [prometheus_url], valid [dashboards], no key outside the four fields (so
    no option of the settings initialiser) and only strings as the values of
    the secrets it supplies, and an environment that supplies both secrets
    (and no undecodable [YAMP_DASHBOARDS]), [load_config] returns the
    configuration whose URL and dashboards are the file's and whose secrets
    are the file's values where the file has them and the environment's
    values where it has not: the file wins over the environment. *)
Theorem load_config_file_over_environment (p : process F)
    (kwargs : gmap string (pyobj F)) (s : string) (u : Url) (d : pyobj F)
    (ds : list (Dashboard F)) (env_token env_user token user : string) :
  files p (get_config_path p) = Some (File (Document (PyDict kwargs))) ->
  extra_keys kwargs = [] ->
  no_options kwargs ->
  kwargs !! "prometheus_url" = Some (PyStr s) ->
  validate_HttpUrl s = Some u ->
  kwargs !! "dashboards" = Some d ->
  validate_list validate_Dashboard d = Some ds ->
  env_vars (env p) !! env_name "pushover_token" = Some env_token ->
  env_vars (env p) !! env_name "pushover_user" = Some env_user ->
  (forall js, env_vars (env p) !! env_name "dashboards" = Some js ->
              is_Some (json_loads js)) ->
  file_or_env (kwargs !! "pushover_token") env_token = Some token ->
  file_or_env (kwargs !! "pushover_user") env_user = Some user ->
  load_config p = Return (Build_YampConfig u token user ds)
  /\ (forall t, kwargs !! "pushover_token" = Some (PyStr t) -> token = t)
  /\ (kwargs !! "pushover_token" = None -> token = env_token)
  /\ (forall t, kwargs !! "pushover_user" = Some (PyStr t) -> user = t)
  /\ (kwargs !! "pushover_user" = None -> user = env_user).
Proof.
  intros Hfile Hextra Hnone Hurl Hu Hd Hds Htoken Huser Hjson Hft Hfu.
  pose proof (extra_keys_fields kwargs Hextra) as Hkeys.
  split.
  2: { unfold file_or_env in *.
       repeat split; intros; simplify_option_eq; by simplify_eq. }
  destruct (env_settings (env_vars (env p)) YampConfig_fields ∅) as [env_data | e] eqn:Henv.
  2: { rewrite env_settings_YampConfig in Henv. unfold env_field in Henv.
       destruct (env_vars (env p) !! env_name "dashboards") as [js |]; [| done].
       destruct (Hjson js eq_refl) as [v Hv]. rewrite Hv in Henv. by destruct v. }
  rewrite (load_config_merged p kwargs (deep_update env_data kwargs) Hfile)
    by (by rewrite merged_input_no_options, Henv).
  assert (Hvalid : YampConfig_validate (deep_update env_data kwargs)
                   = Return (Build_YampConfig u token user ds)).
  { apply YampConfig_validate_Return. cbn.
    destruct (validate_list_PyList _ _ _ Hds) as [items ->].
    repeat split.
    - apply required_url. exists s. split; [| done].
      by rewrite lookup_deep_update, Hurl.
    - apply required_str. unfold string_field. rewrite lookup_deep_update.
      rewrite (env_settings_secret (env_vars (env p)) env_data "pushover_token"
                 (or_introl eq_refl) Henv), Htoken.
      unfold file_or_env in Hft.
      destruct (kwargs !! "pushover_token") as [[] |]; cbn in *; by simplify_eq.
    - apply required_str. unfold string_field. rewrite lookup_deep_update.
      rewrite (env_settings_secret (env_vars (env p)) env_data "pushover_user"
                 (or_intror eq_refl) Henv), Huser.
      unfold file_or_env in Hfu.
      destruct (kwargs !! "pushover_user") as [[] |]; cbn in *; by simplify_eq.
    - unfold required_field. by rewrite lookup_deep_update, Hd.
    - apply extra_keys_nil. intros k. rewrite lookup_deep_update.
      destruct (kwargs !! k) as [new |] eqn:Hk.
      + intros _. apply Hkeys. by rewrite Hk.
      + by apply env_settings_keys with (vars := env_vars (env p)). }
  by rewrite Hvalid.
Qed.


End ConfigClaims.

(** ** The loader on concrete files *)

Section ConfigExamples.
#[local] Existing Instance Example.pydantic.

Lemma load_config_missing_file_witness :
  files Example.process_without_file (get_config_path Example.process_without_file) = None
  /\ load_config Example.process_without_file = Raise (ConfigNotFound "/etc/yamp.yaml").
Proof.
  split; [reflexivity |].
  apply (load_config_missing_file Example.process_without_file).
  reflexivity.
Defined.

(** The file sets [pushover_token] and the environment sets
    [YAMP_PUSHOVER_TOKEN] to another value: the configuration holds the
    file's value.  The environment does not replace a file's value that is
    no string either: with [pushover_token: 12345] in the file, validation
    fails on that field. *)
Lemma environment_does_not_override_file :
  os_getenv (env (Example.process_with (PyDict Example.doc_with_token)))
            "YAMP_PUSHOVER_TOKEN" = Some "token123"
  /\ Example.doc_with_token !! "pushover_token" = Some (PyStr "filetoken")
  /\ load_config (Example.process_with (PyDict Example.doc_with_token))
     = Return (Build_YampConfig "http://localhost:9090/" "filetoken" "user456" [])
  /\ Example.doc_with_numeric_token !! "pushover_token" = Some (PyInt 12345)
  /\ load_config (Example.process_with (PyDict Example.doc_with_numeric_token))
     = Raise (ConfigValidationError ["pushover_token"]).
Proof. repeat split; vm_compute; reflexivity. Qed.

Lemma load_config_file_over_environment_witness :
  load_config (Example.process_with (PyDict Example.doc_with_token))
  = Return (Build_YampConfig "http://localhost:9090/" "filetoken" "user456" [])
  /\ load_config (Example.process_with (PyDict Example.plain_doc))
     = Return (Build_YampConfig "http://localhost:9090/" "token123" "user456" []).
Proof.
  split.
  - apply (load_config_file_over_environment
             (Example.process_with (PyDict Example.doc_with_token))
             Example.doc_with_token "http://localhost:9090" "http://localhost:9090/"
             (PyList []) [] "token123" "user456" "filetoken" "user456");
      try (vm_compute; reflexivity).
    intros js Hjs. vm_compute in Hjs. discriminate Hjs.
  - apply (load_config_file_over_environment
             (Example.process_with (PyDict Example.plain_doc))
             Example.plain_doc "http://localhost:9090" "http://localhost:9090/"
             (PyList []) [] "token123" "user456" "token123" "user456");
      try (vm_compute; reflexivity).
    intros js Hjs. vm_compute in Hjs. discriminate Hjs.
Defined.



End ConfigExamples.

(** * Further properties of the query client *)

Lemma append_cons (a : ascii) (s t : string) : String a s +:+ t = String a (s +:+ t).
Proof. reflexivity. Qed.

Lemma rstrip_no_trailing (c : ascii) (s : string) : ends_with c (rstrip c s) = false.
Proof.
  induction s as [| a s IH]; [done |]. cbn [rstrip].
  destruct (rstrip c s) as [| b r] eqn:Hr.
  - destruct (Ascii.eqb a c) eqn:Hac; [done |]. cbn. exact Hac.
  - exact IH.
Qed.

Lemma rstrip_append_char (c : ascii) (s : string) :
  rstrip c (s +:+ String c "") = rstrip c s.
Proof.
  induction s as [| a s IH].
  - change (rstrip c (String c "") = rstrip c ""). cbn. by rewrite Ascii.eqb_refl.
  - rewrite append_cons. cbn [rstrip]. by rewrite IH.
Qed.

Lemma rstrip_unchanged (c : ascii) (s : string) :
  ends_with c s = false -> rstrip c s = s.
Proof.
  induction s as [| a s IH]; [done |]. intros Hend. cbn [rstrip].
  destruct s as [| b s'].
  - cbn in *. by rewrite Hend.
  - rewrite IH by exact Hend. done.
Qed.

(** X1.  The base URL of a constructed client never ends with a slash and
    stripping it again changes nothing; the query URL is the base URL followed
    by [/api/v1/query]; a URL with one more trailing slash gives the same
    client; a URL without a trailing slash is kept as it is. *)
Theorem init_normalises_base_url (url : string) :
  ends_with "/" (base_url (__init__ url)) = false
  /\ query_url (__init__ url) = base_url (__init__ url) +:+ "/api/v1/query"
  /\ __init__ (url +:+ "/") = __init__ url
  /\ rstrip "/" (base_url (__init__ url)) = base_url (__init__ url)
  /\ (ends_with "/" url = false -> base_url (__init__ url) = url).
Proof.
  unfold __init__. cbn [base_url query_url].
  split; [apply rstrip_no_trailing |]. split; [done |].
  split; [by rewrite rstrip_append_char |].
  split; [apply rstrip_unchanged, rstrip_no_trailing | apply rstrip_unchanged].
Qed.

Lemma init_normalises_base_url_witness :
  ends_with "/" "http://localhost:9090" = false
  /\ base_url (__init__ "http://localhost:9090") = "http://localhost:9090"
  /\ query_url (__init__ "http://localhost:9090//") = "http://localhost:9090/api/v1/query".
Proof.
  split; [reflexivity |]. split; [| reflexivity].
  apply (proj2 (proj2 (proj2 (proj2 (init_normalises_base_url "http://localhost:9090"))))).
  reflexivity.
Defined.

(** X2.  Leaving the block on a client that was never entered changes
    nothing; leaving it twice is the same as leaving it once; leaving never
    changes the URLs. *)
Theorem aexit_without_aenter (self : PrometheusClient) (exc exc' : option exn) :
  (Unbound self -> __aexit__ self exc = self)
  /\ __aexit__ (__aexit__ self exc) exc' = __aexit__ self exc
  /\ base_url (__aexit__ self exc) = base_url self
  /\ query_url (__aexit__ self exc) = query_url self.
Proof.
  unfold Unbound, __aexit__.
  destruct self as [b q [h |]]; cbn; repeat split; try done.
Qed.

Lemma aexit_without_aenter_witness :
  Unbound (__init__ "http://localhost:9090")
  /\ __aexit__ (__init__ "http://localhost:9090") None = __init__ "http://localhost:9090".
Proof.
  split; [reflexivity |].
  apply (proj1 (aexit_without_aenter (__init__ "http://localhost:9090") None None)).
  reflexivity.
Defined.

(** X3.  Entering the block again after it was left gives the same client
    as entering it directly: a new open HTTP client replaces the closed one,
    and the URLs are kept. *)
Theorem aenter_after_aexit (self : PrometheusClient) (exc : option exn) :
  __aenter__ (__aexit__ self exc) = __aenter__ self
  /\ _client (__aenter__ self) = Some Opened
  /\ query_url (__aenter__ self) = query_url self.
Proof.
  unfold __aenter__, __aexit__. by destruct self as [b q [h |]].
Qed.

Section ClientDecisions.
Context {F : Type} `{!Python F}.

Lemma ne_str_false (v : pyobj F) (s : string) : ne_str v s = false -> v = PyStr s.
Proof.
  destruct v as [ | | | | s' | | ]; cbn; try done.
  destruct (String.eqb_spec s' s) as [-> | _]; done.
Qed.

(** Everything [fetch_metric] does on a client whose HTTP client is open, by
    what the server answers. *)
Lemma fetch_metric_opened (net : network F) (self : PrometheusClient) (query : string) :
  _client self = Some Opened ->
  fetch_metric net self query =
  match net (query_url self) query with
  | Failed diag =>
      ([HttpGet (query_url self) query 10; Log (LogRequestFailed diag)],
       Raise (ConnectionError diag))
  | Replied r =>
      if is_success r then
        match json_body r with
        | Undecodable e =>
            match e with
            | RequestError diag =>
                ([HttpGet (query_url self) query 10; Log (LogRequestFailed diag)],
                 Raise (ConnectionError diag))
            | HTTPStatusError code body =>
                ([HttpGet (query_url self) query 10; Log (LogHttpError code body)],
                 Raise (HttpStatusError code body))
            | _ => ([HttpGet (query_url self) query 10], Raise e)
            end
        | Json (PyDict m) =>
            match m !! "status" with
            | None => ([HttpGet (query_url self) query 10], Raise KeyError)
            | Some status =>
                if ne_str status "success" then
                  ([HttpGet (query_url self) query 10],
                   Raise (ApiError (py_str (default (PyStr "Unknown Prometheus API error")
                                                    (m !! "error")))))
                else
                  (HttpGet (query_url self) query 10 :: events (_transform_data (PyDict m)),
                   outcome (_transform_data (PyDict m)))
            end
        | Json _ => ([HttpGet (query_url self) query 10], Raise TypeError)
        end
      else
        ([HttpGet (query_url self) query 10; Log (LogHttpError (status_code r) (text r))],
         Raise (HttpStatusError (status_code r) (text r)))
  end.
Proof.
  intros Hc.
  destruct (net (query_url self) query) as [diag | r] eqn:Hnet.
  - unfold fetch_metric, AsyncClient_get. rewrite Hc. run. by rewrite Hnet.
  - destruct (is_success r) eqn:Hok.
    + destruct (json_body r) as [[ | | | | | | m] | e] eqn:Hjson;
        try (unfold fetch_metric, AsyncClient_get, raise_for_status, Response_json,
               getitem_str; rewrite Hc; run; rewrite Hnet, Hok; cbn; by rewrite Hjson).
      2: { unfold fetch_metric, AsyncClient_get, raise_for_status, Response_json.
           rewrite Hc. run. rewrite Hnet, Hok. cbn. rewrite Hjson. by destruct e. }
      destruct (m !! "status") as [status |] eqn:Hstatus.
      * destruct (ne_str status "success") eqn:Hne.
        -- unfold fetch_metric, AsyncClient_get, raise_for_status, Response_json,
             getitem_str, dict_get; rewrite Hc; run; rewrite Hnet, Hok; cbn.
           rewrite Hjson, Hstatus. cbn. by rewrite Hne.
        -- apply ne_str_false in Hne as ->.
           apply (fetch_metric_success net self query r m); try done.
           unfold json. by rewrite Hjson.
      * unfold fetch_metric, AsyncClient_get, raise_for_status, Response_json,
          getitem_str; rewrite Hc; run; rewrite Hnet, Hok; cbn. by rewrite Hjson, Hstatus.
    + unfold fetch_metric, AsyncClient_get, raise_for_status. rewrite Hc. run.
      by rewrite Hnet, Hok.
Qed.

Lemma _transform_data_events (raw : pyobj F) :
  Forall (fun ev => is_warning ev = true) (events (_transform_data raw)).
Proof.
  unfold _transform_data, mbind, M_bind. rewrite events_bind.
  rewrite result_array_events.
  destruct (outcome (result_array raw)); [| constructor].
  apply for_each_transform_events.
Qed.

Lemma warnings_are_not_requests (evs : list (event F)) :
  Forall (fun ev => is_warning ev = true) evs -> filter is_network_call evs = [].
Proof.
  induction 1 as [| ev evs Hev _ IH]; [done |].
  destruct ev as [url query timeout | r]; [done |].
  rewrite filter_cons_False by (cbn; tauto). exact IH.
Qed.

Lemma message_contains_suffix (pre s : string) (cause : option exn) :
  message_contains (PrometheusClientError (pre +:+ s) cause) s.
Proof. exists pre, "". by rewrite string_app_empty_r. Qed.

(** X4.  When the transport fails, [fetch_metric] sends its one request,
    logs one error and fails with the ConnectionError whose message ends with
    the transport's diagnostic and whose cause is the httpx error. *)
Theorem fetch_metric_connection_failure (net : network F) (self : PrometheusClient)
    (query diag : string) :
  _client self = Some Opened ->
  net (query_url self) query = Failed diag ->
  fetch_metric net self query =
  ([HttpGet (query_url self) query 10; Log (LogRequestFailed diag)],
   Raise (PrometheusClientError ("Connection to Prometheus failed: " +:+ diag)
                                (Some (RequestError diag))))
  /\ message_contains (ConnectionError diag) diag
  /\ levelname (LogRequestFailed (F := F) diag) = ERROR.
Proof.
  intros Hc Hnet. rewrite (fetch_metric_opened net self query Hc), Hnet.
  split; [done |]. split; [apply message_contains_suffix | done].
Qed.

(** X5.  On a response whose status is not 2xx, [fetch_metric] logs one
    error and fails with the HttpStatusError whose message ends with the
    status code; the body is never decoded. *)
Theorem fetch_metric_http_status (net : network F) (self : PrometheusClient)
    (query : string) (r : Response F) :
  _client self = Some Opened ->
  net (query_url self) query = Replied r ->
  (status_code r < 200 \/ 299 < status_code r) ->
  fetch_metric net self query =
  ([HttpGet (query_url self) query 10; Log (LogHttpError (status_code r) (text r))],
   Raise (PrometheusClientError ("Prometheus returned status " +:+ pretty (status_code r))
                                (Some (HTTPStatusError (status_code r) (text r)))))
  /\ message_contains (HttpStatusError (status_code r) (text r)) (pretty (status_code r)).
Proof.
  intros Hc Hnet Hcode. rewrite (fetch_metric_opened net self query Hc), Hnet.
  assert (is_success r = false) as ->.
  { unfold is_success. apply andb_false_iff. rewrite !Z.leb_gt. lia. }
  split; [done | apply message_contains_suffix].
Qed.

(** X6.  On a 2xx response whose body does not decode, [fetch_metric]
    raises the decoder's exception after its request: JSONDecodeError for a
    text that is not JSON, UnicodeDecodeError for bytes that are not valid
    UTF-8.  On a body that is JSON but not an object it raises TypeError.
    None of the three is a [PrometheusClientError]. *)
Theorem fetch_metric_body_not_an_object (net : network F) (self : PrometheusClient)
    (query : string) (r : Response F) :
  _client self = Some Opened ->
  net (query_url self) query = Replied r ->
  is_success r = true ->
  (json_body r = Undecodable JSONDecodeError ->
   fetch_metric net self query =
   ([HttpGet (query_url self) query 10], Raise JSONDecodeError))
  /\ (json_body r = Undecodable UnicodeDecodeError ->
      fetch_metric net self query =
      ([HttpGet (query_url self) query 10], Raise UnicodeDecodeError))
  /\ (forall v, json_body r = Json v -> (forall m, v <> PyDict m) ->
      fetch_metric net self query =
      ([HttpGet (query_url self) query 10], Raise TypeError)).
Proof.
  intros Hc Hnet Hok. rewrite (fetch_metric_opened net self query Hc), Hnet, Hok.
  split; [by intros -> |]. split; [by intros -> |].
  intros v -> Hv. destruct v as [ | | | | | | m]; try done. by destruct (Hv m).
Qed.

(** X7.  A call of [fetch_metric] sends exactly one request when the HTTP
    client is open, whatever the server answers and however many entries are
    malformed (there is no retry), and none otherwise; the request goes to the
    query URL with the query and the timeout 10. *)
Theorem fetch_metric_single_request (net : network F) (self : PrometheusClient)
    (query : string) :
  filter is_network_call (events (fetch_metric net self query)) =
  match _client self with
  | Some Opened => [HttpGet (query_url self) query 10]
  | _ => []
  end.
Proof.
  destruct (_client self) as [[|] |] eqn:Hc.
  - rewrite (fetch_metric_opened net self query Hc).
    destruct (net (query_url self) query) as [diag | r]; [done |].
    destruct (is_success r); [| done].
    destruct (json_body r) as [[ | | | | | | m] | e]; try done; [| by destruct e].
    destruct (m !! "status") as [status |]; [| done].
    destruct (ne_str status "success"); [done |].
    cbn [events fst]. rewrite filter_cons_True by done.
    by rewrite (warnings_are_not_requests _ (_transform_data_events (PyDict m))).
  - unfold fetch_metric. by rewrite Hc.
  - unfold fetch_metric. by rewrite Hc.
Qed.

Lemma for_each_transform_accounts (items : list (pyobj F)) :
  forall acc out,
    outcome (for_each transform_item items acc) = Return out ->
    (length out + length (events (for_each transform_item items acc))
     = length acc + length items)%nat.
Proof.
  induction items as [| item items IH]; intros acc out.
  - cbn. intros [= <-]. lia.
  - rewrite for_each_cons, outcome_bind, events_bind.
    destruct (transform_item_cases acc item)
      as [(s & _ & ->) | [(_ & e & _ & ->) | (_ & e & _ & ->)]]; cbn; [| | done].
    + intros Hout. specialize (IH _ _ Hout). rewrite length_app in IH. cbn in *. lia.
    + intros Hout. specialize (IH _ _ Hout). unfold events in *. cbn. lia.
Qed.

(** X9.  When the normalization returns, every entry of the result array
    was either emitted or logged: the length of the output plus the number of
    events is the number of entries, every event is a warning, the output is
    no longer than the input and keeps its order. *)
Theorem _transform_data_accounts (raw : pyobj F) (items : list (pyobj F))
    (out : list (sample F)) :
  outcome (result_array raw) = Return items ->
  outcome (_transform_data raw) = Return out ->
  (length out + length (events (_transform_data raw)) = length items)%nat
  /\ (length out <= length items)%nat
  /\ Forall (fun ev => is_warning ev = true) (events (_transform_data raw))
  /\ out = omap emitted items.
Proof.
  intros Hitems Hout.
  assert (Hloop : outcome (for_each transform_item items []) = Return out).
  { unfold _transform_data, mbind, M_bind in Hout.
    by rewrite outcome_bind, Hitems in Hout. }
  assert (Hlen : (length out + length (events (_transform_data raw)) = length items)%nat).
  { unfold _transform_data, mbind, M_bind.
    rewrite events_bind, Hitems, result_array_events. cbn [app].
    by rewrite (for_each_transform_accounts items [] out Hloop). }
  split; [exact Hlen |]. split; [lia |]. split; [apply _transform_data_events |].
  by rewrite (for_each_transform_returns items [] out Hloop).
Qed.

(** X10.  An entry whose value array has, as second element, a string that
    [float] rejects is skipped: the iteration appends nothing and logs one
    warning, for the ValueError. *)
Theorem unparsable_string_skipped (m : gmap string (pyobj F)) (l : list (pyobj F))
    (s : string) :
  m !! "value" = Some (PyList l) ->
  l !! 1%nat = Some (PyStr s) ->
  float_of_str s = None ->
  (forall results,
     transform_item results (PyDict m) =
     ([Log (LogUnparsable (PyDict m) ValueError)], Return results))
  /\ emitted (PyDict m) = None
  /\ levelname (LogUnparsable (PyDict m) ValueError) = WARNING.
Proof.
  intros Hvalue Hx Hfloat.
  assert (Hitem : forall results,
             transform_item results (PyDict m) =
             ([Log (LogUnparsable (PyDict m) ValueError)], Return results)).
  { intros results. unfold transform_item, dict_get, getitem_int, py_float. run.
    rewrite Hvalue. cbn. rewrite Hx. cbn. by rewrite Hfloat. }
  split; [exact Hitem |]. split; [| done].
  unfold emitted. by rewrite Hitem.
Qed.

(** X11.  An entry whose value array has a JSON number (a float) as second
    element emits that number as it is, with the entry's labels, or with the
    empty dictionary when the entry has no labels. *)
Theorem numeric_value_emitted (m : gmap string (pyobj F)) (l : list (pyobj F)) (f : F) :
  m !! "value" = Some (PyList l) ->
  l !! 1%nat = Some (PyFloat f) ->
  emitted (PyDict m) = Some (Build_sample (default (PyDict ∅) (m !! "metric")) f)
  /\ (m !! "metric" = None -> emitted (PyDict m) = Some (Build_sample (PyDict ∅) f)).
Proof.
  intros Hvalue Hx.
  assert (Hemit : emitted (PyDict m)
                  = Some (Build_sample (default (PyDict ∅) (m !! "metric")) f)).
  { unfold emitted. by rewrite (transform_item_emits [] m l (PyFloat f) f). }
  split; [exact Hemit |]. intros Hmetric. by rewrite Hemit, Hmetric.
Qed.

(** X12.  The first element of a value array (the timestamp) is never
    looked at: two entries that differ only in it emit the same sample, or
    both none. *)
Theorem timestamp_is_ignored (m : gmap string (pyobj F)) (t t' : pyobj F)
    (rest : list (pyobj F)) :
  emitted (PyDict (<["value" := PyList (t :: rest)]> m))
  = emitted (PyDict (<["value" := PyList (t' :: rest)]> m)).
Proof.
  assert (Hbody : forall t0,
    emitted (PyDict (<["value" := PyList (t0 :: rest)]> m)) =
    match rest with
    | x :: _ =>
        match outcome (py_float x) with
        | Return f => Some (Build_sample (default (PyDict ∅) (m !! "metric")) f)
        | Raise _ => None
        end
    | [] => None
    end).
  { intros t0. unfold emitted, transform_item, dict_get, getitem_int. run.
    rewrite lookup_insert_eq. cbn. rewrite lookup_insert_ne by done.
    destruct rest as [| x rest']; cbn; [done |].
    destruct (py_float x) as [evs [f | e]] eqn:Hf; cbn; [done |].
    by destruct e. }
  by rewrite !Hbody.
Qed.

(** X13.  A body without [data], a [data] without [result] and an empty
    [result] all normalize to the empty list, without any event.  The defaults
    apply to absent keys only: a [data] that is [null] raises AttributeError
    and a [result] that is [null] raises TypeError. *)
Theorem _transform_data_no_entries (m : gmap string (pyobj F)) :
  (m !! "data" = None -> _transform_data (PyDict m) = ([], Return []))
  /\ (forall d, m !! "data" = Some (PyDict d) -> d !! "result" = None ->
                _transform_data (PyDict m) = ([], Return []))
  /\ (forall d, m !! "data" = Some (PyDict d) -> d !! "result" = Some (PyList []) ->
                _transform_data (PyDict m) = ([], Return []))
  /\ (m !! "data" = Some PyNone -> _transform_data (PyDict m) = ([], Raise AttributeError))
  /\ (forall d, m !! "data" = Some (PyDict d) -> d !! "result" = Some PyNone ->
                _transform_data (PyDict m) = ([], Raise TypeError)).
Proof.
  unfold _transform_data, result_array, dict_get, py_iter.
  repeat split.
  - intros Hm. run. rewrite Hm. cbn. by rewrite lookup_empty.
  - intros d Hm Hd. run. rewrite Hm. cbn. by rewrite Hd.
  - intros d Hm Hd. run. rewrite Hm. cbn. by rewrite Hd.
  - intros Hm. run. by rewrite Hm.
  - intros d Hm Hd. run. rewrite Hm. cbn. by rewrite Hd.
Qed.

End ClientDecisions.

Section ClientScenarios.
#[local] Existing Instance Binary64.python.

Lemma fetch_metric_connection_failure_witness :
  fetch_metric Scenario.unreachable Example.client "up" =
  ([HttpGet "http://localhost:9090/api/v1/query" "up" 10;
    Log (LogRequestFailed "All connection attempts failed")],
   Raise (PrometheusClientError
            "Connection to Prometheus failed: All connection attempts failed"
            (Some (RequestError "All connection attempts failed")))).
Proof.
  apply (fetch_metric_connection_failure Scenario.unreachable Example.client "up"
           "All connection attempts failed"); reflexivity.
Defined.

Lemma fetch_metric_http_status_witness :
  outcome (fetch_metric Scenario.failing Example.client "up") =
  Raise (PrometheusClientError "Prometheus returned status 500"
           (Some (HTTPStatusError 500 "Internal Server Error")))
  /\ message_contains (HttpStatusError 500 "Internal Server Error") "500".
Proof.
  destruct (fetch_metric_http_status Scenario.failing Example.client "up"
              {| status_code := 500; text := "Internal Server Error";
                 json_body := Undecodable JSONDecodeError |})
    as [Hfetch Hmessage]; [reflexivity | reflexivity | right; cbn; lia |].
  split; [by rewrite Hfetch | exact Hmessage].
Defined.

Lemma fetch_metric_body_not_an_object_witness :
  fetch_metric Scenario.garbled Example.client "up" =
  ([HttpGet "http://localhost:9090/api/v1/query" "up" 10], Raise JSONDecodeError).
Proof.
  apply (proj1 (fetch_metric_body_not_an_object Scenario.garbled Example.client "up"
                  {| status_code := 200; text := "<html>";
                     json_body := Undecodable JSONDecodeError |}
                  eq_refl eq_refl eq_refl)).
  reflexivity.
Defined.

Lemma _transform_data_accounts_witness :
  outcome (_transform_data Scenario.three_entries_body)
  = Return [Build_sample (PyDict {[ "instance" := PyStr "good" ]})
                         0x1.3ae147ae147aep+0%float]
  /\ (1 + length (events (_transform_data Scenario.three_entries_body)) = 3)%nat.
Proof.
  split; [reflexivity |].
  apply (_transform_data_accounts Scenario.three_entries_body Scenario.three_entries
           [Build_sample (PyDict {[ "instance" := PyStr "good" ]})
                         0x1.3ae147ae147aep+0%float]);
    reflexivity.
Defined.

Lemma unparsable_string_skipped_witness :
  float_of_str "not-a-float" = None
  /\ emitted (PyDict Scenario.bad_entry) = None.
Proof.
  split; [reflexivity |].
  apply (unparsable_string_skipped Scenario.bad_entry
           [PyInt 0; PyStr "not-a-float"] "not-a-float");
    reflexivity.
Defined.

Lemma numeric_value_emitted_witness :
  emitted (PyDict Scenario.numeric_entry) = Some (Build_sample (PyDict ∅) 0.5%float).
Proof.
  apply (proj2 (numeric_value_emitted Scenario.numeric_entry
                  [PyInt 0; PyFloat 0.5%float] 0.5%float eq_refl eq_refl)).
  reflexivity.
Defined.

Lemma _transform_data_no_entries_witness :
  _transform_data (PyDict Example.error_body) = ([], Return [])
  /\ _transform_data (PyDict Scenario.null_data_body) = ([], Raise AttributeError).
Proof.
  split.
  - apply (proj1 (_transform_data_no_entries Example.error_body)). reflexivity.
  - apply (proj1 (proj2 (proj2 (proj2 (_transform_data_no_entries
                                         Scenario.null_data_body))))).
    reflexivity.
Defined.

End ClientScenarios.

(** * Further properties of the configuration loader *)

Section LoaderProperties.
Context {F Url : Type} `{!Pydantic F Url}.

(** X14.  The resolved path is never empty: it is the value of
    [YAMP_CONFIG_PATH] when that is set and not empty, and the default under
    the project root when the variable is unset or empty. *)
Theorem get_config_path_resolution (p : process F) :
  get_config_path p <> ""
  /\ (forall path, os_getenv (env p) "YAMP_CONFIG_PATH" = Some path -> path <> "" ->
                   get_config_path p = path)
  /\ (os_getenv (env p) "YAMP_CONFIG_PATH" = None
      \/ os_getenv (env p) "YAMP_CONFIG_PATH" = Some "" ->
      get_config_path p = project_root p +:+ "/config/yamp.yaml").
Proof.
  unfold get_config_path, default_config_path.
  assert (Hdefault : project_root p +:+ "/config/yamp.yaml" <> "")
    by (by destruct (project_root p)).
  destruct (os_getenv (env p) "YAMP_CONFIG_PATH") as [path |].
  - destruct (String.eqb_spec path "") as [-> | Hne].
    + repeat split; try done. by intros path' [= <-] ?.
    + repeat split; try done.
      * by intros path' [= <-] _.
      * intros [? | [= ->]]; done.
  - repeat split; done.
Qed.

(** X16.  A file that is not well-formed YAML makes [load_config] fail with
    the ConfigParseError that carries the parser's diagnostic and the
    YAMLError as cause, whatever the environment holds: nothing is validated. *)
Theorem load_config_malformed_yaml (p : process F) (diag : string) :
  files p (get_config_path p) = Some (File (Malformed diag)) ->
  load_config p = Raise (ConfigError ("Error parsing YAML file: " +:+ diag)
                                     (Some (YAMLError diag)))
  /\ (forall locs, load_config p <> Raise (ConfigValidationError locs))
  /\ load_config p <> Raise (ConfigNotFound (get_config_path p)).
Proof.
  intros Hfile. unfold load_config. rewrite Hfile.
  split; [done |]. split; intros; discriminate.
Qed.

(** X17.  A document that is not a mapping (an empty file, a list, a
    scalar) makes [load_config] raise TypeError, which is not a
    [ConfigError]. *)
Theorem load_config_not_a_mapping (p : process F) (doc : pyobj F) :
  files p (get_config_path p) = Some (File (Document doc)) ->
  (forall kwargs, doc <> PyDict kwargs) ->
  load_config p = Raise TypeError
  /\ (forall msg cause, load_config p <> Raise (ConfigError msg cause)).
Proof.
  intros Hfile Hdoc. unfold load_config. rewrite Hfile.
  destruct doc as [ | | | | | | kwargs]; try (split; [done | intros; discriminate]).
  by destruct (Hdoc kwargs).
Qed.

(** X18.  When the environment holds a [YAMP_DASHBOARDS] value that is not
    JSON and the file's mapping sets no option of the settings initialiser,
    [load_config] raises the SettingsError of the settings source, whatever
    field values the mapping holds. *)
Theorem load_config_undecodable_dashboards (p : process F)
    (kwargs : gmap string (pyobj F)) (js : string) :
  files p (get_config_path p) = Some (File (Document (PyDict kwargs))) ->
  no_options kwargs ->
  env_vars (env p) !! env_name "dashboards" = Some js ->
  json_loads js = None ->
  load_config p = Raise (SettingsError "dashboards").
Proof.
  intros Hfile Hnone Hjs Hjson.
  apply (load_config_unmerged p kwargs (SettingsError "dashboards") Hfile).
  rewrite (settings_sources_no_options p kwargs Hnone), env_settings_YampConfig.
  unfold env_field. by rewrite Hjs, Hjson.
Qed.

(** For the three fields that are plain strings in the environment, the
    merged input of a document without options holds the file's value when
    the file has the key and the environment's value otherwise. *)
Lemma merged_simple_field (p : process F) (kwargs data : gmap string (pyobj F))
    (field : string) :
  no_options kwargs ->
  field ∈ ["prometheus_url"; "pushover_token"; "pushover_user"] ->
  merged_input p kwargs = Some data ->
  data !! field =
  match kwargs !! field with
  | Some v => Some v
  | None => env_str (env_vars (env p)) field
  end.
Proof.
  intros Hnone. rewrite (merged_input_no_options p kwargs Hnone).
  rewrite env_settings_YampConfig.
  destruct (env_field (env_vars (env p)) "dashboards" true) as [boards | err]; [| done].
  intros Hfield [= <-]. rewrite lookup_deep_update, !lookup_supply, lookup_empty.
  apply list_elem_of_In in Hfield. cbn in Hfield.
  destruct Hfield as [<- | [<- | [<- | []]]]; repeat case_decide; try done;
    unfold env_str;
    match goal with
    | |- context [kwargs !! ?k] => destruct (kwargs !! k) as [[] |]
    end;
    match goal with
    | |- context [env_vars (env p) !! ?k] => destruct (env_vars (env p) !! k)
    | _ => idtac
    end; done.
Qed.

Lemma elem_of_extra_keys (data : gmap string (pyobj F)) (k : string) :
  k ∈ extra_keys data <-> is_Some (data !! k) /\ k ∉ YampConfig_fields.*1.
Proof.
  unfold extra_keys. split.
  - intros [Hnot Hin]%list_elem_of_filter.
    apply list_elem_of_fmap in Hin as (kv & -> & Hin). destruct kv as [k' v].
    apply elem_of_map_to_list in Hin. split; [by exists v | done].
  - intros ([v Hv] & Hnot). apply list_elem_of_filter. split; [done |].
    apply list_elem_of_fmap. exists (k, v).
    split; [done | by apply elem_of_map_to_list].
Qed.

(** A field that the merged input lacks is named by the error. *)
Lemma load_config_names_missing_field (p : process F)
    (kwargs data : gmap string (pyobj F)) (field : string) :
  files p (get_config_path p) = Some (File (Document (PyDict kwargs))) ->
  merged_input p kwargs = Some data ->
  field ∈ YampConfig_fields.*1 ->
  data !! field = None ->
  exists locs, load_config p = Raise (ConfigValidationError locs) /\ field ∈ locs.
Proof.
  intros Hfile Hmerged Hfield Hmissing.
  rewrite (load_config_merged p kwargs data Hfile Hmerged).
  destruct (YampConfig_validate data) as [cfg | e] eqn:Hvalid.
  - apply YampConfig_validate_Return in Hvalid as (Hu & Ht & Hus & Hds & _).
    unfold required_field in *.
    apply list_elem_of_In in Hfield. unfold YampConfig_fields in Hfield. cbn in Hfield.
    destruct Hfield as [<- | [<- | [<- | [<- | []]]]]; by rewrite Hmissing in *.
  - apply YampConfig_validate_Raise in Hvalid as (locs & -> & Hlocs).
    exists locs. split; [done |]. rewrite Hlocs.
    unfold required_field.
    apply list_elem_of_In in Hfield. unfold YampConfig_fields in Hfield. cbn in Hfield.
    destruct Hfield as [<- | [<- | [<- | [<- | []]]]]; rewrite Hmissing;
      cbn [error_at]; rewrite !elem_of_app, ?list_elem_of_singleton; tauto.
Qed.

(** X20.  When the file's mapping sets no option of the settings
    initialiser and neither the file nor the environment supplies the base
    address or one of the two secrets, [load_config] fails with a
    ConfigValidationError whose locations include the name of that field. *)
Theorem load_config_missing_secret (p : process F) (kwargs : gmap string (pyobj F))
    (field : string) :
  files p (get_config_path p) = Some (File (Document (PyDict kwargs))) ->
  no_options kwargs ->
  field ∈ ["prometheus_url"; "pushover_token"; "pushover_user"] ->
  kwargs !! field = None ->
  env_vars (env p) !! env_name field = None ->
  (forall js, env_vars (env p) !! env_name "dashboards" = Some js ->
              is_Some (json_loads js)) ->
  exists locs, load_config p = Raise (ConfigValidationError locs) /\ field ∈ locs.
Proof.
  intros Hfile Hnone Hfield Hkw Henv Hjson.
  destruct (merged_input p kwargs) as [data |] eqn:Hmerged.
  - apply (load_config_names_missing_field p kwargs data field Hfile Hmerged).
    + apply list_elem_of_In in Hfield. cbn in Hfield.
      destruct Hfield as [<- | [<- | [<- | []]]]; apply list_elem_of_In;
        unfold YampConfig_fields; cbn; tauto.
    + rewrite (merged_simple_field p kwargs data field Hnone Hfield Hmerged), Hkw.
      unfold env_str. by rewrite Henv.
  - rewrite (merged_input_no_options p kwargs Hnone), env_settings_YampConfig in Hmerged.
    unfold env_field in Hmerged.
    destruct (env_vars (env p) !! env_name "dashboards") as [js |]; [| done].
    destruct (Hjson js eq_refl) as [v Hv]. rewrite Hv in Hmerged. by destruct v.
Qed.

(** X21.  A key of the file that is neither one of the four fields nor an
    option of the settings initialiser makes [load_config] fail, when the
    sources give a merged input, with a ConfigValidationError whose locations
    include that key. *)
Theorem load_config_rejects_extra_key (p : process F)
    (kwargs data : gmap string (pyobj F)) (k : string) :
  files p (get_config_path p) = Some (File (Document (PyDict kwargs))) ->
  merged_input p kwargs = Some data ->
  is_Some (kwargs !! k) ->
  k ∉ YampConfig_fields.*1 ->
  init_option k = false ->
  exists locs, load_config p = Raise (ConfigValidationError locs) /\ k ∈ locs.
Proof.
  intros Hfile Hmerged [v Hk] Hnot Hvalue.
  assert (Hextra : k ∈ extra_keys data).
  { apply elem_of_extra_keys. split; [| done].
    unfold merged_input in Hmerged.
    destruct (settings_sources _ _) as [state |]; [| done].
    injection Hmerged as <-. rewrite lookup_deep_update.
    assert (init_values kwargs !! k = Some v) as ->
      by (by apply map_lookup_filter_Some).
    destruct v, (state !! k) as [[] |]; eauto. }
  rewrite (load_config_merged p kwargs data Hfile Hmerged).
  destruct (YampConfig_validate data) as [cfg | e] eqn:Hvalid.
  - apply YampConfig_validate_Return in Hvalid as (_ & _ & _ & _ & Hnil).
    rewrite Hnil in Hextra. by apply elem_of_nil in Hextra.
  - apply YampConfig_validate_Raise in Hvalid as (locs & -> & Hlocs).
    exists locs. split; [done |]. rewrite Hlocs.
    rewrite !elem_of_app. tauto.
Qed.

(** X22.  A list field validates exactly when the value is a list whose
    elements all validate, and the result holds the validated elements one for
    one, in the same order. *)
Theorem validate_list_elementwise {A} (validate : pyobj F -> option A) (v : pyobj F)
    (xs : list A) :
  validate_list validate v = Some xs <->
  exists items, v = PyList items /\ Forall2 (fun item x => validate item = Some x) items xs.
Proof.
  split.
  - destruct v as [ | | | | | items | ]; try done. cbn.
    intros Hmap. exists items. split; [done |]. by apply mapM_Some.
  - intros (items & -> & Hall). cbn. by apply mapM_Some.
Qed.

Lemma validate_Dashboard_positive (v : pyobj F) (d : Dashboard F) :
  validate_Dashboard v = Some d -> 0 < refresh_interval F d.
Proof.
  unfold validate_Dashboard, optional_field, validate_refresh_interval.
  destruct v as [ | | | | | | m]; try done.
  destruct (required_field m "name" validate_str) as [n |]; cbn; [| done].
  destruct (m !! "refresh_interval") as [r |]; cbn.
  - destruct (validate_int r) as [z |]; cbn; [| done].
    destruct (0 <? z) eqn:Hz; cbn; [| done].
    destruct (required_field m "metrics" _) as [ms |]; cbn; [| done].
    intros [= <-]. cbn. by apply Z.ltb_lt.
  - destruct (required_field m "metrics" _) as [ms |]; cbn; [| done].
    intros [= <-]. done.
Qed.

(** X23.  Every dashboard of a configuration that [load_config] returns has
    a positive refresh interval. *)
Theorem load_config_refresh_intervals_positive (p : process F) (cfg : YampConfig F Url) :
  load_config p = Return cfg ->
  Forall (fun d => 0 < refresh_interval F d) (dashboards cfg).
Proof.
  intros Hload.
  destruct (load_config_Return p cfg Hload) as (kwargs & data & _ & _ & Hvalid).
  apply YampConfig_validate_Return in Hvalid as (_ & _ & _ & Hds & _).
  unfold required_field in Hds.
  destruct (data !! "dashboards") as [v |]; [| done].
  apply validate_list_elementwise in Hds as (items & _ & Hall).
  induction Hall as [| item d items ds Hd _ IH]; constructor; [| done].
  by apply (validate_Dashboard_positive item).
Qed.

(** X24.  The nested models ignore keys they do not declare: adding such a
    key to a dashboard, a metric or an alert changes nothing in its
    validation. *)
Theorem nested_models_ignore_extra_keys (m : gmap string (pyobj F)) (k : string)
    (v : pyobj F) :
  (k ∉ ["name"; "refresh_interval"; "metrics"] ->
   validate_Dashboard (PyDict (<[k := v]> m)) = validate_Dashboard (PyDict m))
  /\ (k ∉ ["title"; "query"; "unit"; "alert"] ->
      validate_Metric (PyDict (<[k := v]> m)) = validate_Metric (PyDict m))
  /\ (k ∉ ["threshold"; "duration"; "priority"] ->
      validate_AlertConfig (PyDict (<[k := v]> m)) = validate_AlertConfig (PyDict m)).
Proof.
  unfold validate_Dashboard, validate_Metric, validate_AlertConfig,
    required_field, optional_field.
  repeat split; intros Hk; rewrite !lookup_insert_ne; try done;
    intros ->; apply Hk; apply list_elem_of_In; cbn; tauto.
Qed.

(** X25.  A priority validates to a member of [AlertPriority] exactly when
    the integer validator gives that member's value: 0, 1 and 2 are LOW, NORMAL
    and HIGH, and every other integer is rejected. *)
Theorem validate_AlertPriority_value (v : pyobj F) (p : AlertPriority) :
  validate_AlertPriority v = Some p <-> validate_int v = Some (AlertPriority_value p).
Proof.
  unfold validate_AlertPriority.
  destruct (validate_int v) as [[| [[] | [] |] |] |]; destruct p; cbn; split; done.
Qed.


(** X27.  A validated alert has the duration "5m" and the priority NORMAL
    when the mapping has none, and a threshold that the mapping supplies: a
    threshold is required. *)
Theorem AlertConfig_defaults (m : gmap string (pyobj F)) (a : AlertConfig F) :
  validate_AlertConfig (PyDict m) = Some a ->
  (m !! "duration" = None -> duration F a = "5m")
  /\ (m !! "priority" = None -> priority F a = NORMAL)
  /\ (exists t, m !! "threshold" = Some t /\ validate_float t = Some (threshold F a)).
Proof.
  unfold validate_AlertConfig, required_field, optional_field, validate_str.
  destruct (m !! "threshold") as [t |]; cbn; [| done].
  destruct (validate_float t) as [f |] eqn:Hf; cbn; [| done].
  destruct (m !! "duration") as [[ | | | | d | | ] |]; cbn; try done;
    destruct (m !! "priority") as [pr |]; cbn;
    try (destruct (validate_AlertPriority pr); cbn); try done;
    intros [= <-]; cbn; repeat split; try done; eauto.
Qed.

End LoaderProperties.

Section LoaderScenarios.
#[local] Existing Instance Example.pydantic.

Lemma get_config_path_resolution_witness :
  os_getenv Scenario.full_env "YAMP_CONFIG_PATH" = Some "/etc/yamp.yaml"
  /\ get_config_path (Scenario.process_of Scenario.full_env Directory) = "/etc/yamp.yaml".
Proof.
  split; [reflexivity |].
  apply (proj1 (proj2 (get_config_path_resolution
                         (Scenario.process_of Scenario.full_env Directory)))
               "/etc/yamp.yaml"); [reflexivity | discriminate].
Defined.

Lemma load_config_malformed_yaml_witness :
  load_config (Scenario.process_of Scenario.bare_env
                 (File (Malformed "mapping values are not allowed here")))
  = Raise (ConfigError "Error parsing YAML file: mapping values are not allowed here"
                       (Some (YAMLError "mapping values are not allowed here"))).
Proof.
  apply (load_config_malformed_yaml
           (Scenario.process_of Scenario.bare_env
              (File (Malformed "mapping values are not allowed here")))
           "mapping values are not allowed here").
  reflexivity.
Defined.

(** An empty file is the document [None]. *)
Lemma load_config_not_a_mapping_witness :
  load_config (Scenario.process_of Scenario.full_env (File (Document PyNone)))
  = Raise TypeError.
Proof.
  apply (load_config_not_a_mapping
           (Scenario.process_of Scenario.full_env (File (Document PyNone))) PyNone);
    [reflexivity | discriminate].
Defined.

Lemma load_config_undecodable_dashboards_witness :
  load_config (Scenario.process_of (Scenario.full_env ++ [("YAMP_DASHBOARDS", "not json")])
                 (File (Document (PyDict Example.plain_doc))))
  = Raise (SettingsError "dashboards").
Proof.
  apply (load_config_undecodable_dashboards
           (Scenario.process_of (Scenario.full_env ++ [("YAMP_DASHBOARDS", "not json")])
              (File (Document (PyDict Example.plain_doc))))
           Example.plain_doc "not json");
    vm_compute; reflexivity.
Defined.

Lemma load_config_missing_secret_witness :
  exists locs,
    load_config (Scenario.process_of Scenario.bare_env
                   (File (Document (PyDict Example.plain_doc))))
    = Raise (ConfigValidationError locs)
    /\ "pushover_token" ∈ locs.
Proof.
  apply (load_config_missing_secret
           (Scenario.process_of Scenario.bare_env
              (File (Document (PyDict Example.plain_doc))))
           Example.plain_doc "pushover_token").
  - reflexivity.
  - vm_compute. reflexivity.
  - apply list_elem_of_In. cbn. tauto.
  - reflexivity.
  - vm_compute. reflexivity.
  - intros js Hjs. vm_compute in Hjs. discriminate Hjs.
Defined.

Lemma load_config_rejects_extra_key_witness :
  exists locs,
    load_config (Scenario.process_of Scenario.full_env
                   (File (Document (PyDict Scenario.doc_with_extra_key))))
    = Raise (ConfigValidationError locs)
    /\ "theme" ∈ locs.
Proof.
  apply (load_config_rejects_extra_key
           (Scenario.process_of Scenario.full_env
              (File (Document (PyDict Scenario.doc_with_extra_key))))
           Scenario.doc_with_extra_key
           (default ∅ (merged_input
                         (Scenario.process_of Scenario.full_env
                            (File (Document (PyDict Scenario.doc_with_extra_key))))
                         Scenario.doc_with_extra_key))
           "theme").
  - reflexivity.
  - vm_compute. reflexivity.
  - exists (PyStr "dark"). reflexivity.
  - intros Hin. apply list_elem_of_In in Hin. cbn in Hin.
    destruct Hin as [H | [H | [H | [H | []]]]]; discriminate H.
  - reflexivity.
Defined.

Lemma validate_list_elementwise_witness :
  exists items,
    PyList [PyDict Scenario.cpu_metric] = PyList items
    /\ Forall2 (fun item x => validate_Metric item = Some x) items
               [Build_Metric "CPU" "node_cpu" "" None].
Proof.
  apply (proj1 (validate_list_elementwise validate_Metric
                  (PyList [PyDict Scenario.cpu_metric])
                  [Build_Metric "CPU" "node_cpu" "" None])).
  reflexivity.
Defined.

Lemma load_config_refresh_intervals_positive_witness :
  Forall (fun d => 0 < refresh_interval float d)
    [Build_Dashboard "Test Dash" 15 [Build_Metric "CPU" "node_cpu" "" None]].
Proof.
  apply (load_config_refresh_intervals_positive
           (Example.process_with (PyDict Scenario.doc_with_dashboard))
           (Build_YampConfig "http://localhost:9090/" "token123" "user456"
              [Build_Dashboard "Test Dash" 15 [Build_Metric "CPU" "node_cpu" "" None]])).
  vm_compute. reflexivity.
Defined.

Lemma nested_models_ignore_extra_keys_witness :
  validate_Dashboard (PyDict (<["color" := PyStr "red"]> Scenario.test_dashboard))
  = validate_Dashboard (PyDict Scenario.test_dashboard).
Proof.
  apply (proj1 (nested_models_ignore_extra_keys Scenario.test_dashboard "color"
                  (PyStr "red"))).
  intros Hin. apply list_elem_of_In in Hin. cbn in Hin.
  destruct Hin as [H | [H | [H | []]]]; discriminate H.
Defined.

Lemma validate_AlertPriority_value_witness :
  validate_AlertPriority (PyInt 2) = Some HIGH.
Proof.
  apply (proj2 (validate_AlertPriority_value (PyInt 2) HIGH)). reflexivity.
Defined.


Lemma AlertConfig_defaults_witness :
  validate_AlertConfig (PyDict Scenario.cpu_alert)
  = Some (Build_AlertConfig 90%float "5m" NORMAL)
  /\ duration float (Build_AlertConfig 90%float "5m" NORMAL) = "5m".
Proof.
  split; [reflexivity |].
  destruct (AlertConfig_defaults Scenario.cpu_alert
              (Build_AlertConfig 90%float "5m" NORMAL)) as (Hduration & _);
    [reflexivity |].
  apply Hduration. reflexivity.
Defined.

End LoaderScenarios.
